(** * database.py: provenance store for processed images

    A shallow embedding of [src/database.py]: the pymodm models [Image] and
    [User], the request validator [_image_parameter_check], and the
    operations of [ImageProcessingDB], written as functions over an explicit
    store.  Python exceptions are values of [exn]; an operation that touches
    the store returns its outcome together with the store it leaves behind,
    so that whatever was saved before an exception stays saved. *)

From Stdlib Require Import List String Ascii ZArith NArith Bool Lia.
From Stdlib.Strings Require Import Byte.
Import ListNotations.
Local Open Scope string_scope.
Local Open Scope Z_scope.

(** ** Python values *)

Set Warnings "-register-all".

(** The values a request can carry: the JSON-like built-in data, [bytes],
    and class objects such as [str] itself ([PClass "str"]).  Instances of
    classes that define their own comparison are not among them. *)
Inductive pyval : Type :=
| PNone
| PBool (b : bool)
| PInt (z : Z)
| PStr (s : string)
| PBytes (b : list byte)
| PList (l : list pyval)
| PDict (d : list (string * pyval))
| PClass (name : string).

Definition pydict := list (string * pyval).

(** ** Exceptions and results *)

Inductive exn_class : Type :=
| TypeError | AttributeError | ValueError | IndexError | KeyError
| ValidationError.

Record exn : Type := Exn { exn_cls : exn_class; exn_msg : string }.

Inductive result (A : Type) : Type :=
| Ok (a : A)
| Raise (e : exn).
Arguments Ok {A} a.
Arguments Raise {A} e.

Definition bindR {A B} (r : result A) (k : A -> result B) : result B :=
  match r with
  | Ok a => k a
  | Raise e => Raise e
  end.

Declare Scope py_scope.
Delimit Scope py_scope with py.
Notation "x <- c ;; k" := (bindR c (fun x => k))
  (at level 61, c at next level, right associativity) : py_scope.
Notation "c ;; k" := (bindR c (fun _ => k))
  (at level 61, right associativity) : py_scope.

Definition is_ok {A} (r : result A) : bool :=
  match r with Ok _ => true | Raise _ => false end.

(** ** Built-ins used by the validator *)

(** [key in d.keys()] and [d[key]] on a dict with string keys. *)
Fixpoint lookup (key : string) (d : pydict) : option pyval :=
  match d with
  | [] => None
  | (k, v) :: rest => if String.eqb k key then Some v else lookup key rest
  end.

Definition getitem (d : pydict) (key : string) : result pyval :=
  match lookup key d with
  | Some v => Ok v
  | None => Raise (Exn KeyError key)
  end.

(** [isinstance(v, str)]. *)
Definition isinstance_str (v : pyval) : bool :=
  match v with PStr _ => true | _ => false end.

(** [isinstance(v, int)]: [bool] is a subclass of [int]. *)
Definition isinstance_int (v : pyval) : bool :=
  match v with PInt _ | PBool _ => true | _ => false end.

(** [v != str], the comparison of a value with the class object [str]:
    a class object is equal to itself only. *)
Definition ne_class_str (v : pyval) : bool :=
  match v with
  | PClass name => negb (String.eqb name "str")
  | _ => true
  end.

Definition lower_ascii (c : ascii) : ascii :=
  let n := nat_of_ascii c in
  if (andb (Nat.leb 65 n) (Nat.leb n 90)) then ascii_of_nat (n + 32) else c.

Fixpoint lower_string (s : string) : string :=
  match s with
  | EmptyString => EmptyString
  | String c rest => String (lower_ascii c) (lower_string rest)
  end.

Definition lower_byte (b : byte) : byte :=
  byte_of_ascii (lower_ascii (ascii_of_byte b)).

(** [v.lower()].  On the class object [str] the call has no receiver and
    raises [TypeError]; values without the method raise [AttributeError]. *)
Definition py_lower (v : pyval) : result pyval :=
  match v with
  | PStr s => Ok (PStr (lower_string s))
  | PBytes b => Ok (PBytes (map lower_byte b))
  | PClass name =>
      if String.eqb name "str" then
        Raise (Exn TypeError
                 "descriptor 'lower' of 'str' object needs an argument")
      else Raise (Exn AttributeError "lower")
  | _ => Raise (Exn AttributeError "lower")
  end.

(** [v in names] for a list of [str]: only a [str] can be equal to one. *)
Definition in_str_list (v : pyval) (names : list string) : bool :=
  match v with
  | PStr s => existsb (String.eqb s) names
  | _ => false
  end.

(** ** base64 (library model)

    [b64encode] is RFC 4648 with padding.  [b64decode] follows
    [binascii.a2b_base64] without validation: characters outside the
    alphabet are skipped, a completed pad sequence ends the input, and a
    dangling quad is an error ([None]). *)

Definition b64_alphabet : list byte :=
  list_byte_of_string
    "ABCDEFGHIJKLMNOPQRSTUVWXYZabcdefghijklmnopqrstuvwxyz0123456789+/".

Definition b64_pad : byte := "="%byte.

Definition b64_char (n : N) : byte :=
  nth (N.to_nat n) b64_alphabet b64_pad.

Definition byte_of_N' (n : N) : byte :=
  match Byte.of_N n with Some b => b | None => x00 end.

Fixpoint b64encode (s : list byte) : list byte :=
  match s with
  | [] => []
  | [a] =>
      let x := Byte.to_N a in
      [b64_char (x / 4); b64_char ((x mod 4) * 16); b64_pad; b64_pad]
  | [a; b] =>
      let x := Byte.to_N a in
      let y := Byte.to_N b in
      [b64_char (x / 4); b64_char ((x mod 4) * 16 + y / 16);
       b64_char ((y mod 16) * 4); b64_pad]
  | a :: b :: c :: rest =>
      let x := Byte.to_N a in
      let y := Byte.to_N b in
      let z := Byte.to_N c in
      b64_char (x / 4) :: b64_char ((x mod 4) * 16 + y / 16)
        :: b64_char ((y mod 16) * 4 + z / 64) :: b64_char (z mod 64)
        :: b64encode rest
  end%N.

Fixpoint index_of (c : byte) (l : list byte) (i : N) : option N :=
  match l with
  | [] => None
  | x :: rest => if Byte.eqb x c then Some i else index_of c rest (i + 1)%N
  end.

Definition b64_index (c : byte) : option N := index_of c b64_alphabet 0%N.

(** The decoder's loop: [quad_pos] counts the sextets of the current quad,
    [leftchar] holds the bits not yet written, [pads] the pad characters
    seen since the last sextet, [out] the bytes written so far (reversed). *)
Fixpoint a2b_base64 (data : list byte) (quad_pos : nat) (leftchar : N)
    (pads : nat) (out : list byte) : option (list byte) :=
  match data with
  | [] => if Nat.eqb quad_pos 0 then Some (rev out) else None
  | c :: rest =>
      if Byte.eqb c b64_pad then
        if andb (Nat.leb 2 quad_pos) (Nat.leb 4 (quad_pos + S pads))
        then Some (rev out)
        else a2b_base64 rest quad_pos leftchar
               (if Nat.leb 2 quad_pos then S pads else pads) out
      else
        match b64_index c with
        | None => a2b_base64 rest quad_pos leftchar pads out
        | Some v =>
            match quad_pos with
            | O => a2b_base64 rest 1 v 0 out
            | 1%nat =>
                a2b_base64 rest 2 (v mod 16) 0
                  (byte_of_N' (leftchar * 4 + v / 16) :: out)
            | 2%nat =>
                a2b_base64 rest 3 (v mod 4) 0
                  (byte_of_N' (leftchar * 16 + v / 4) :: out)
            | _ =>
                a2b_base64 rest 0 0 0
                  (byte_of_N' (leftchar * 64 + v) :: out)
            end%N
        end
  end.

Definition b64decode (s : list byte) : option (list byte) :=
  a2b_base64 s 0 0 0 [].

Definition bytes_eqb (a b : list byte) : bool :=
  if list_eq_dec Byte.byte_eq_dec a b then true else false.

(** [_is_base64]: any exception inside the [try] gives [False].  A [str]
    may decode, but the re-encoded [bytes] never compare equal to a [str];
    other values make [b64decode] raise. *)
Definition _is_base64 (image_data : pyval) : bool :=
  match image_data with
  | PBytes b =>
      match b64decode b with
      | Some raw => bytes_eqb (b64encode raw) b
      | None => false
      end
  | PStr s =>
      match b64decode (list_byte_of_string s) with
      | Some raw => false
      | None => false
      end
  | _ => false
  end.

(** ** The Processing class *)

(** [dir(object)]: the attribute names of the built-in [object], as of
    Python 3.6 to 3.10 (3.11 adds [__getstate__]). *)
Definition dir_object : list string :=
  ["__class__"; "__delattr__"; "__dir__"; "__doc__"; "__eq__"; "__format__";
   "__ge__"; "__getattribute__"; "__gt__"; "__hash__"; "__init__";
   "__init_subclass__"; "__le__"; "__lt__"; "__ne__"; "__new__";
   "__reduce__"; "__reduce_ex__"; "__repr__"; "__setattr__"; "__sizeof__";
   "__str__"; "__subclasshook__"].

(** A class as seen through [getattr] and [callable]: the attributes the
    class body defines, each with whether its value is callable.  What the
    class does not define it inherits from [object], where every attribute
    but the docstring is callable. *)
Record pyclass : Type := Class { cls_attrs : list (string * bool) }.

Fixpoint assoc_bool (name : string) (l : list (string * bool)) : option bool :=
  match l with
  | [] => None
  | (k, c) :: rest => if String.eqb k name then Some c else assoc_bool name rest
  end.

Definition callable_getattr (cls : pyclass) (method_name : string) : bool :=
  match assoc_bool method_name (cls_attrs cls) with
  | Some c => c
  | None =>
      andb (existsb (String.eqb method_name) dir_object)
           (negb (String.eqb method_name "__doc__"))
  end.

(** The methods a class body defines: its capabilities. *)
Definition defines_method (cls : pyclass) (name : string) : bool :=
  match assoc_bool name (cls_attrs cls) with
  | Some c => c
  | None => false
  end.

Section Validator.

(** The class [Processing] of the module [processing], which is imported
    by [database.py] and is not part of it. *)
Variable Processing : pyclass.

Definition valid_process (process : pyval) : bool :=
  let valid_processes :=
    filter (fun method_name => callable_getattr Processing method_name)
           dir_object in
  if negb (in_str_list process valid_processes) then false else true.

(** *** [_image_parameter_check], one block per field *)

Local Open Scope py_scope.

Definition check_image_id (image_info : pydict) : result unit :=
  match lookup "image_id" image_info with
  | None => Raise (Exn AttributeError "image_info must have image_id.")
  | Some v =>
      if negb (isinstance_str v)
      then Raise (Exn AttributeError "image_id must be type str.")
      else Ok tt
  end.

Definition check_image (image_info : pydict) : result unit :=
  match lookup "image" image_info with
  | None => Raise (Exn AttributeError "image_info must have image data.")
  | Some v =>
      if negb (_is_base64 v)
      then Raise (Exn TypeError "image must be type base64.")
      else Ok tt
  end.

Definition check_height_width (image_info : pydict) : result unit :=
  match lookup "height" image_info with
  | None => Raise (Exn AttributeError "image_info must have height.")
  | Some h =>
      match lookup "width" image_info with
      | None => Raise (Exn AttributeError "image_info must have width.")
      | Some w =>
          if negb (isinstance_int h)
          then Raise (Exn TypeError "height must be type int.")
          else if negb (isinstance_int w)
          then Raise (Exn TypeError "height must be type int.")
          else Ok tt
      end
  end.

Definition format_names : list string := ["jpg"; "jpeg"; "png"; "tiff"; "gif"].

Definition check_format (image_info : pydict) : result unit :=
  match lookup "format" image_info with
  | None => Raise (Exn AttributeError "image_info must have format.")
  | Some v =>
      if ne_class_str v
      then Raise (Exn TypeError "format must be type str")
      else
        lowered <- py_lower v ;;
        if negb (in_str_list lowered format_names)
        then Raise (Exn ValueError "format invalid.")
        else Ok tt
  end.

Definition check_processing_time (image_info : pydict) : result unit :=
  match lookup "processing_time" image_info with
  | None => Raise (Exn AttributeError "image_info must have processing_time.")
  | Some v =>
      if negb (isinstance_int v)
      then Raise (Exn TypeError
                    "processing_time must be type int in milliseconds.")
      else Ok tt
  end.

Definition check_process (image_info : pydict) : result unit :=
  match lookup "process" image_info with
  | None => Raise (Exn AttributeError "image_info must have process.")
  | Some v =>
      if negb (isinstance_str v)
      then Raise (Exn TypeError "process must be type str.")
      else if negb (valid_process v)
      then Raise (Exn ValueError "process invalid.")
      else Ok tt
  end.

(** The checks run in this order and the first failure is raised; a
    request that passes all of them is returned as it came. *)
Definition _image_parameter_check (image_info : pyval) : result pydict :=
  match image_info with
  | PDict d =>
      check_image_id d ;;
      check_image d ;;
      check_height_width d ;;
      check_format d ;;
      check_processing_time d ;;
      check_process d ;;
      Ok d
  | _ => Raise (Exn TypeError "image_info must be type dict.")
  end.

End Validator.

(** ** The models and the store *)

(** [class Image(MongoModel)].  The primary key is a [str]; the other
    fields hold whatever value they were given.  [image] and [child_ids]
    are not set by the constructor call in [add_image] and start out as
    [None] and the empty list. *)
Record Image : Type := mkImage {
  image_id : string;
  image : pyval;
  user_id : string;
  timestamp : Z;
  width : pyval;
  height : pyval;
  format : pyval;
  description : pyval;
  child_ids : list pyval;
  process_history : list pyval;
  processing_time : pyval;
  process : pyval
}.

(** [class User(MongoModel)]: [uploads] maps an upload id to the most
    recent id. *)
Record User : Type := mkUser {
  User_user_id : string;
  uploads : list (pyval * pyval)
}.

(** The two collections, in the order a full scan returns them. *)
Record DB : Type := mkDB {
  images : list Image;
  users : list User
}.

Definition set_child_ids (i : Image) (l : list pyval) : Image :=
  mkImage (image_id i) (image i) (user_id i) (timestamp i) (width i)
    (height i) (format i) (description i) l (process_history i)
    (processing_time i) (process i).

Definition set_process_history (i : Image) (l : list pyval) : Image :=
  mkImage (image_id i) (image i) (user_id i) (timestamp i) (width i)
    (height i) (format i) (description i) (child_ids i) l
    (processing_time i) (process i).

Definition set_uploads (u : User) (d : list (pyval * pyval)) : User :=
  mkUser (User_user_id u) d.

(** A model instance in memory: the document it was built from plus the
    attributes assigned to it that are not fields of the model.  Only the
    fields are written by [save]. *)
Record ImageObj : Type := mkImageObj {
  doc : Image;
  py_attrs : list (string * pyval)
}.

Definition from_document (i : Image) : ImageObj := mkImageObj i [].

Definition setattr_other (o : ImageObj) (name : string) (v : pyval)
  : ImageObj :=
  mkImageObj (doc o) ((name, v) :: py_attrs o).

(** [Image.objects.all()] and [User.objects.all()]: every scan builds new
    instances from the stored documents. *)
Definition Image_objects_all (db : DB) : list Image := images db.
Definition User_objects_all (db : DB) : list User := users db.

(** [save()]: replace the document with the same primary key, or insert.
    This is [save] on a document that pymodm accepts; the refusals of its
    own validation (a blank text field, a ledger key that is not a plain
    [str], a number too large to encode) are not part of the model. *)
Fixpoint upsert_image (i : Image) (l : list Image) : list Image :=
  match l with
  | [] => [i]
  | x :: rest =>
      if String.eqb (image_id x) (image_id i) then i :: rest
      else x :: upsert_image i rest
  end.

Fixpoint upsert_user (u : User) (l : list User) : list User :=
  match l with
  | [] => [u]
  | x :: rest =>
      if String.eqb (User_user_id x) (User_user_id u) then u :: rest
      else x :: upsert_user u rest
  end.

Definition Image_save (i : Image) (db : DB) : DB :=
  mkDB (upsert_image i (images db)) (users db).

Definition User_save (u : User) (db : DB) : DB :=
  mkDB (images db) (upsert_user u (users db)).

(** ** Operations on the store *)

(** An operation starts from a store and ends with a result and a store. *)
Definition M (A : Type) : Type := DB -> result A * DB.

Definition ret {A} (a : A) : M A := fun db => (Ok a, db).

Definition bindM {A B} (m : M A) (k : A -> M B) : M B :=
  fun db =>
    match m db with
    | (Ok a, db') => k a db'
    | (Raise e, db') => (Raise e, db')
    end.

Definition lift {A} (r : result A) : M A := fun db => (r, db).

Declare Scope db_scope.
Delimit Scope db_scope with db.
Notation "x <- c ;; k" := (bindM c (fun x => k))
  (at level 61, c at next level, right associativity) : db_scope.
Notation "c ;; k" := (bindM c (fun _ => k))
  (at level 61, right associativity) : db_scope.

(** [str(stored_id) == v]: a [str] is equal to another [str] only. *)
Definition str_eq (stored_id : string) (v : pyval) : bool :=
  match v with
  | PStr s => String.eqb stored_id s
  | _ => false
  end.

Definition find_image (id : pyval) (db : DB) : option Image :=
  find (fun image => str_eq (image_id image) id) (Image_objects_all db).

Definition find_image_child (id : pyval) (db : DB) : option Image :=
  find (fun image => str_eq (image_id image) id) (Image_objects_all db).

Definition find_user (id : pyval) (db : DB) : option User :=
  find (fun user => str_eq (User_user_id user) id) (User_objects_all db).

(** [process_history[-1]]. *)
Definition last_item (l : list pyval) : result pyval :=
  match l with
  | [] => Raise (Exn IndexError "list index out of range")
  | x :: rest => Ok (last rest x)
  end.

(** [process_history[0]]. *)
Definition first_item (l : list pyval) : result pyval :=
  match l with
  | [] => Raise (Exn IndexError "list index out of range")
  | x :: _ => Ok x
  end.

Definition none_has_no (attr : string) : exn :=
  Exn AttributeError
    ("'NoneType' object has no attribute '" ++ attr ++ "'").

Local Open Scope db_scope.

Definition find_image_parent (id : pyval) : M (option Image) :=
  fun db =>
    match find_image id db with
    | None => (Raise (none_has_no "process_history"), db)
    | Some image =>
        match last_item (process_history image) with
        | Raise e => (Raise e, db)
        | Ok parent_id =>
            let parent_image := find_image parent_id db in
            (Ok parent_image, db)
        end
    end.

Definition _add_child (child_id parent_id : pyval) : M (option pyval) :=
  fun db =>
    match find_image parent_id db with
    | Some parent_image =>
        let parent_image :=
          set_child_ids parent_image (child_ids parent_image ++ [child_id]) in
        (Ok (Some child_id), Image_save parent_image db)
    | None => (Ok None, db)
    end.

Definition add_user (uid : string) : M User :=
  fun db =>
    match find_user (PStr uid) db with
    | Some _ => (Raise (Exn ValueError "User already exists!"), db)
    | None =>
        let u := mkUser uid [] in
        (Ok u, User_save u db)
    end.

(** Dict keys: the hashable values, compared as Python compares them
    ([True == 1]). *)
Definition hashable (v : pyval) : bool :=
  match v with
  | PList _ | PDict _ => false
  | _ => true
  end.

Definition as_int (v : pyval) : option Z :=
  match v with
  | PInt z => Some z
  | PBool b => Some (if b then 1 else 0)
  | _ => None
  end.

Definition key_eqb (a b : pyval) : bool :=
  match as_int a, as_int b with
  | Some x, Some y => Z.eqb x y
  | _, _ =>
      match a, b with
      | PNone, PNone => true
      | PStr x, PStr y => String.eqb x y
      | PBytes x, PBytes y => bytes_eqb x y
      | PClass x, PClass y => String.eqb x y
      | _, _ => false
      end
  end.

(** [d[key] = v]. *)
Fixpoint dict_set (key v : pyval) (d : list (pyval * pyval))
  : list (pyval * pyval) :=
  match d with
  | [] => [(key, v)]
  | (k, x) :: rest =>
      if key_eqb k key then (k, v) :: rest
      else (k, x) :: dict_set key v rest
  end.

Fixpoint dict_get (key : pyval) (d : list (pyval * pyval)) : option pyval :=
  match d with
  | [] => None
  | (k, x) :: rest => if key_eqb k key then Some x else dict_get key rest
  end.

Definition setitem (d : list (pyval * pyval)) (key v : pyval)
  : result (list (pyval * pyval)) :=
  if hashable key then Ok (dict_set key v d)
  else Raise (Exn TypeError "unhashable type").

Definition update_user_uploads (uid : string) (history : list pyval)
  : M unit :=
  root_id <- lift (first_item history) ;;
  recent_id <- lift (last_item history) ;;
  user <- (fun db =>
             match find_user (PStr uid) db with
             | Some user => (Ok user, db)
             | None => add_user uid db
             end) ;;
  new_uploads <- lift (setitem (uploads user) root_id recent_id) ;;
  fun db => (Ok tt, User_save (set_uploads user new_uploads) db).

(** [update_description]: the loop over the scan taken at its start. *)
Fixpoint update_description_loop (cursor : list Image) (id : pyval)
    (text : pyval) (image_exists : bool) (db : DB) : bool * DB :=
  match cursor with
  | [] => (image_exists, db)
  | image :: rest =>
      if str_eq (image_id image) id then
        let image := setattr_other (from_document image) "heart_rates" text in
        update_description_loop rest id text true (Image_save (doc image) db)
      else update_description_loop rest id text image_exists db
  end.

Definition update_description (id : pyval) (text : pyval) (db : DB)
  : bool * DB :=
  update_description_loop (Image_objects_all db) id text false db.

(** [delete()]: remove what is stored under the instance's primary key. *)
Definition Image_delete (i : Image) (db : DB) : DB :=
  mkDB (filter (fun x => negb (String.eqb (image_id x) (image_id i)))
          (images db))
       (users db).

(** [remove_image]: the loop over the scan taken at its start.  Nothing
    but the matching documents is touched. *)
Fixpoint remove_image_loop (cursor : list Image) (id : pyval)
    (removed : bool) (db : DB) : bool * DB :=
  match cursor with
  | [] => (removed, db)
  | image :: rest =>
      if str_eq (image_id image) id then
        remove_image_loop rest id true (Image_delete image db)
      else remove_image_loop rest id removed db
  end.

Definition remove_image (id : pyval) (db : DB) : bool * DB :=
  remove_image_loop (Image_objects_all db) id false db.

(** A [CharField] primary key holds a [str], which is what the validator
    asks of [image_id].  What pymodm makes of another value is not part
    of the model: it is refused here. *)
Definition charfield (v : pyval) : result string :=
  match v with
  | PStr s => Ok s
  | _ => Raise (Exn ValidationError "image_id")
  end.

(** [add_image] after the validator has returned: lines 55 to 88.  The
    caller's [user_id] is a [str]. *)
Definition add_image_validated (uid : string) (image_info : pydict)
    (current_time : Z) : M unit :=
  history <-
    match lookup "parent_id" image_info with
    | Some parent_id =>
        fun db =>
          match find_image parent_id db with
          | None => (Raise (none_has_no "process_history"), db)
          | Some parent_image =>
              (* the append changes the list of this instance only *)
              let parent_image :=
                set_process_history parent_image
                  (process_history parent_image ++ [parent_id]) in
              let history := process_history parent_image in
              (child_id <- lift (getitem image_info "image_id") ;;
               _add_child child_id parent_id ;;
               ret history) db
          end
    | None => ret []
    end ;;
  update_user_uploads uid history ;;
  let text :=
    match lookup "description" image_info with
    | None => PStr "None"
    | Some d => d
    end in
  new_id <- lift (getitem image_info "image_id") ;;
  w <- lift (getitem image_info "width") ;;
  h <- lift (getitem image_info "height") ;;
  fmt <- lift (getitem image_info "format") ;;
  ptime <- lift (getitem image_info "processing_time") ;;
  proc <- lift (getitem image_info "process") ;;
  key <- lift (charfield new_id) ;;
  let i := mkImage key PNone uid current_time w h fmt text [] history
             ptime proc in
  fun db => (Ok tt, Image_save i db).

Section Facade.

Variable Processing : pyclass.

Definition add_image (uid : string) (image_info : pyval)
    (current_time : Z) : M unit :=
  validated <- lift (_image_parameter_check Processing image_info) ;;
  add_image_validated uid validated current_time.

End Facade.

(** The tests of the two scans, named for the proofs. *)
Definition has_id (v : pyval) (i : Image) : bool := str_eq (image_id i) v.
Definition has_uid (v : pyval) (u : User) : bool := str_eq (User_user_id u) v.

(** The store with the records under an id taken out. *)
Definition without_id (id : pyval) (db : DB) : DB :=
  mkDB (filter (fun x => negb (has_id id x)) (images db)) (users db).

(** ** Data for the examples *)

Definition bytes_of (s : string) : list byte := list_byte_of_string s.

(** A [Processing] class with four image operations. *)
Definition Processing_example : pyclass :=
  Class [("__init__", true); ("histogram_equalization", true);
         ("contrast_stretch", true); ("log_compression", true);
         ("reverse_video", true)].

Definition image_p0 : Image :=
  mkImage "p0" PNone "u1" 100 (PInt 4) (PInt 3) (PStr "png")
    (PStr "original") [PStr "c0"] [] (PInt 0) (PStr "upload").

Definition image_c0 : Image :=
  mkImage "c0" PNone "u1" 101 (PInt 4) (PInt 3) (PStr "png")
    (PStr "first edit") [] [PStr "p0"] (PInt 12) (PStr "reverse_video").

Definition db0 : DB :=
  mkDB [image_p0; image_c0] [mkUser "u1" [(PStr "p0", PStr "p0")]].

Definition request_fields (fmt proc : pyval) : pydict :=
  [("image_id", PStr "c1"); ("image", PBytes (bytes_of "QUJD"));
   ("height", PInt 3); ("width", PInt 4); ("format", fmt);
   ("processing_time", PInt 12); ("process", proc)].

(** A request as a caller would send it, derived from the stored [p0]. *)
Definition request_child : pydict :=
  (request_fields (PStr "png") (PStr "reverse_video")
     ++ [("parent_id", PStr "p0")])%list.

(** The same request without a parent: a new lineage root. *)
Definition request_root : pydict :=
  request_fields (PStr "png") (PStr "reverse_video").

(** * Properties *)

(** ** base64 *)

Example b64encode_ABC : b64encode (bytes_of "ABC") = bytes_of "QUJD".
Proof. reflexivity. Qed.

Example b64decode_padded : b64decode (bytes_of "QUI=") = Some (bytes_of "AB").
Proof. reflexivity. Qed.

Example b64decode_dangling : b64decode (bytes_of "QUJ") = None.
Proof. reflexivity. Qed.

Example _is_base64_bytes : _is_base64 (PBytes (bytes_of "QUJD")) = true.
Proof. reflexivity. Qed.

(** The trailing bits of "QR==" are not zero: it decodes, to the byte that
    encodes as "QQ==". *)
Example _is_base64_not_canonical :
  _is_base64 (PBytes (bytes_of "QR==")) = false.
Proof. reflexivity. Qed.

(** Text is never base64 for [_is_base64]: [bytes] and [str] differ. *)
Lemma _is_base64_str (s : string) : _is_base64 (PStr s) = false.
Proof. simpl. destruct (b64decode (list_byte_of_string s)); reflexivity. Qed.

(** ** The validator *)

Lemma str_eq_true (s : string) (v : pyval) :
  str_eq s v = true <-> v = PStr s.
Proof.
  destruct v; simpl; split; intro H; try discriminate.
  - apply String.eqb_eq in H. now subst.
  - inversion H. apply String.eqb_refl.
Qed.

Lemma in_str_list_In (v : pyval) (names : list string) :
  in_str_list v names = true <-> exists s, v = PStr s /\ In s names.
Proof.
  destruct v; simpl; split; intro H;
    try discriminate; try (destruct H as (x & Hx & _); discriminate).
  - apply existsb_exists in H. destruct H as (x & Hin & Heq).
    apply String.eqb_eq in Heq. subst x. now exists s.
  - destruct H as (x & Hx & Hin). inversion Hx; subst x.
    apply existsb_exists. exists s. split; [assumption|apply String.eqb_refl].
Qed.

(** No value of the model gets through the format block: only the class
    object [str] passes the comparison, and it has no receiver for
    [lower]. *)
Lemma check_format_never_ok (d : pydict) :
  exists e, check_format d = Raise e.
Proof.
  unfold check_format. destruct (lookup "format" d) as [v|]; [|eauto].
  destruct v; simpl; eauto.
  destruct (String.eqb name "str"); simpl; eauto.
Qed.

Lemma _image_parameter_check_never_ok (Processing : pyclass) (info : pyval) :
  exists e, _image_parameter_check Processing info = Raise e.
Proof.
  destruct info; simpl; eauto.
  destruct (check_image_id d); simpl; eauto.
  destruct (check_image d); simpl; eauto.
  destruct (check_height_width d); simpl; eauto.
  destruct (check_format_never_ok d) as (e & ->). simpl. eauto.
Qed.

(** The validator raises with one of three classes: [AttributeError] for
    a missing field (and for an [image_id] that is not a [str]),
    [TypeError] for a wrong type, [ValueError] for a format or a process
    that is not recognised. *)
Lemma validator_exn_classes (Processing : pyclass) (info : pyval) (e : exn) :
  _image_parameter_check Processing info = Raise e ->
  exn_cls e = TypeError \/ exn_cls e = AttributeError \/
  exn_cls e = ValueError.
Proof.
  destruct info; simpl; try (intro H; inversion H; subst; simpl; tauto).
  unfold check_image_id, check_image, check_height_width, check_format,
    check_processing_time, check_process, py_lower, bindR.
  repeat match goal with
         | |- context [match lookup ?k d with _ => _ end] =>
             destruct (lookup k d)
         | |- context [if ?b then _ else _] => destruct b
         | |- context [match ?v with PNone => _ | _ => _ end] => destruct v
         end;
    intro H; inversion H; subst; simpl; tauto.
Qed.

Lemma add_image_unfold (Processing : pyclass) (uid : string) (info : pyval)
    (t : Z) (db : DB) :
  add_image Processing uid info t db =
  match _image_parameter_check Processing info with
  | Ok d => add_image_validated uid d t db
  | Raise e => (Raise e, db)
  end.
Proof.
  unfold add_image, bindM, lift.
  destruct (_image_parameter_check Processing info); reflexivity.
Qed.

Lemma add_image_always_raises (Processing : pyclass) (uid : string)
    (info : pyval) (t : Z) (db : DB) :
  exists e, add_image Processing uid info t db = (Raise e, db).
Proof.
  rewrite add_image_unfold.
  destruct (_image_parameter_check_never_ok Processing info) as (e & ->).
  eauto.
Qed.

(** C3: a request whose format is a string, "png" and "PNG" included, is
    turned down by the format block with the wrong-type error, so the
    case-insensitive comparison with the five names is never reached. *)
Theorem check_format_rejects_every_str (d : pydict) (s : string) :
  lookup "format" d = Some (PStr s) ->
  check_format d = Raise (Exn TypeError "format must be type str").
Proof.
  intro H. unfold check_format. rewrite H. reflexivity.
Qed.

Lemma check_format_rejects_every_str_witness :
  lookup "format" request_root = Some (PStr "png") /\
  check_format request_root = Raise (Exn TypeError "format must be type str").
Proof.
  split; [reflexivity|].
  apply (check_format_rejects_every_str request_root "png"). reflexivity.
Defined.

Example check_format_PNG :
  check_format [("format", PStr "PNG")]
  = Raise (Exn TypeError "format must be type str").
Proof. reflexivity. Qed.

Example check_format_class_str :
  check_format [("format", PClass "str")]
  = Raise (Exn TypeError
             "descriptor 'lower' of 'str' object needs an argument").
Proof. reflexivity. Qed.

Lemma valid_process_iff (Processing : pyclass) (v : pyval) :
  valid_process Processing v = true <->
  exists name, v = PStr name /\ In name dir_object /\
               callable_getattr Processing name = true.
Proof.
  unfold valid_process.
  destruct (in_str_list v _) eqn:E; simpl; split; intro H;
    try discriminate; try reflexivity.
  - apply in_str_list_In in E. destruct E as (s & -> & Hin).
    apply filter_In in Hin. destruct Hin as [Hin Hc]. simpl in Hc.
    exists s. repeat split; assumption.
  - destruct H as (name & -> & Hin & Hc).
    assert (in_str_list (PStr name)
              (filter (fun m => callable_getattr Processing m) dir_object)
            = true) as E'.
    { apply in_str_list_In. exists name. split; [reflexivity|].
      apply filter_In. split; assumption. }
    congruence.
Qed.

(** C7: the names [valid_process] accepts are drawn from the attributes of
    the built-in [object], not from the class [Processing]; an operation
    that [Processing] defines under any other name is turned down. *)
Theorem valid_process_rejects_capability (Processing : pyclass)
    (name : string) :
  defines_method Processing name = true ->
  existsb (String.eqb name) dir_object = false ->
  valid_process Processing (PStr name) = false.
Proof.
  intros _ Hnot.
  destruct (valid_process Processing (PStr name)) eqn:E; [|reflexivity].
  apply valid_process_iff in E. destruct E as (n & Hn & Hin & _).
  inversion Hn; subst n.
  assert (existsb (String.eqb name) dir_object = true) as Hyes.
  { apply existsb_exists. exists name. split; [assumption|].
    apply String.eqb_refl. }
  congruence.
Qed.

Lemma valid_process_rejects_capability_witness :
  defines_method Processing_example "reverse_video" = true /\
  valid_process Processing_example (PStr "reverse_video") = false.
Proof.
  split; [reflexivity|].
  apply (valid_process_rejects_capability Processing_example "reverse_video");
    reflexivity.
Defined.

(** What is accepted instead: a name of [object] that the class does not
    define as an operation. *)
Example valid_process_accepts_dunder :
  defines_method Processing_example "__eq__" = false /\
  valid_process Processing_example (PStr "__eq__") = true.
Proof. split; reflexivity. Qed.

Example check_process_reverse_video :
  check_process Processing_example request_root
  = Raise (Exn ValueError "process invalid.").
Proof. reflexivity. Qed.

(** C8, as stated: the processing-time block would accept exactly the
    non-negative integers.  It accepts [-5]. *)
Lemma check_processing_time_accepts_negative :
  ~ (forall (d : pydict) (z : Z),
        lookup "processing_time" d = Some (PInt z) ->
        (check_processing_time d = Ok tt <-> 0 <= z)).
Proof.
  intro H.
  specialize (H [("processing_time", PInt (-5))] (-5) eq_refl).
  destruct H as [H _]. specialize (H eq_refl). lia.
Qed.

(** C8, amended: the processing-time block accepts a request exactly when
    the field is present and is an [int] ([bool] included), of any sign. *)
Theorem check_processing_time_accepts_iff_int (d : pydict) :
  check_processing_time d = Ok tt <->
  exists v, lookup "processing_time" d = Some v /\ isinstance_int v = true.
Proof.
  unfold check_processing_time.
  destruct (lookup "processing_time" d) as [v|]; split; intro H.
  - exists v. split; [reflexivity|].
    destruct (isinstance_int v); [reflexivity|discriminate].
  - destruct H as (v' & Hv & Hi). inversion Hv; subst v'.
    rewrite Hi. reflexivity.
  - discriminate.
  - destruct H as (v' & Hv & _). discriminate.
Qed.

Example check_processing_time_bool :
  check_processing_time [("processing_time", PBool true)] = Ok tt.
Proof. reflexivity. Qed.

(** ** The store *)

Lemma find_image_eq (v : pyval) (db : DB) :
  find_image v db = find (has_id v) (images db).
Proof. reflexivity. Qed.

Lemma find_image_id (v : pyval) (db : DB) (i : Image) :
  find_image v db = Some i -> v = PStr (image_id i).
Proof.
  rewrite find_image_eq. intro H. apply find_some in H.
  apply str_eq_true. apply H.
Qed.

Lemma find_upsert_same (i : Image) (l : list Image) :
  find (has_id (PStr (image_id i))) (upsert_image i l) = Some i.
Proof.
  assert (has_id (PStr (image_id i)) i = true) as Hi
    by (apply str_eq_true; reflexivity).
  induction l as [|x l IH]; cbn [upsert_image find].
  - rewrite Hi. reflexivity.
  - destruct (String.eqb (image_id x) (image_id i)) eqn:E; cbn [find].
    + rewrite Hi. reflexivity.
    + unfold has_id at 1. simpl. rewrite E. exact IH.
Qed.

Lemma find_upsert_other (v : pyval) (i : Image) (l : list Image) :
  has_id v i = false ->
  find (has_id v) (upsert_image i l) = find (has_id v) l.
Proof.
  intro Hi. induction l as [|x l IH]; cbn [upsert_image find].
  - rewrite Hi. reflexivity.
  - destruct (String.eqb (image_id x) (image_id i)) eqn:E; cbn [find].
    + apply String.eqb_eq in E.
      assert (has_id v x = false) as Hx
        by (unfold has_id in *; rewrite E; exact Hi).
      rewrite Hi, Hx. reflexivity.
    + rewrite IH. reflexivity.
Qed.

(** Saving the first record found under an id replaces that record. *)
Lemma find_upsert_found (v : pyval) (i i' : Image) (l : list Image) :
  find (has_id v) l = Some i ->
  image_id i' = image_id i ->
  find (has_id v) (upsert_image i' l) = Some i'.
Proof.
  intros Hf Hid.
  assert (v = PStr (image_id i)) as ->.
  { apply find_some in Hf. apply str_eq_true. apply Hf. }
  rewrite <- Hid. apply find_upsert_same.
Qed.

Lemma upsert_image_present (i : Image) (l : list Image) :
  NoDup (map image_id l) -> In i l -> upsert_image i l = l.
Proof.
  induction l as [|x l IH]; simpl; intros Hnd Hin; [contradiction|].
  inversion Hnd as [|? ? Hnotin Hnd']; subst.
  destruct Hin as [->|Hin].
  - rewrite String.eqb_refl. reflexivity.
  - destruct (String.eqb (image_id x) (image_id i)) eqn:E.
    + apply String.eqb_eq in E. exfalso. apply Hnotin. rewrite E.
      apply in_map. exact Hin.
    + rewrite IH by assumption. reflexivity.
Qed.

Lemma Image_save_present (i : Image) (db : DB) :
  NoDup (map image_id (images db)) -> In i (images db) ->
  Image_save i db = db.
Proof.
  intros Hnd Hin. unfold Image_save. rewrite upsert_image_present by assumption.
  destruct db; reflexivity.
Qed.

(** ** Lookups *)

(** C9: [find_image_child] returns, for every id and every store, what
    [find_image] returns. *)
Theorem find_image_child_eq_find_image (id : pyval) (db : DB) :
  find_image_child id db = find_image id db.
Proof.
  unfold find_image_child, find_image.
  induction (Image_objects_all db) as [|image rest IH]; simpl.
  - reflexivity.
  - destruct (str_eq (image_id image) id); [reflexivity|exact IH].
Qed.

(** C5: on a stored image whose history is empty, [find_image_parent]
    ends in the [IndexError] of [process_history[-1]]; nothing in it
    turns the missing parent into a result. *)
Theorem find_image_parent_root_raises (id : pyval) (db : DB) (img : Image) :
  find_image id db = Some img ->
  process_history img = [] ->
  find_image_parent id db
  = (Raise (Exn IndexError "list index out of range"), db).
Proof.
  intros Hf Hh. unfold find_image_parent. rewrite Hf, Hh. reflexivity.
Qed.

Lemma find_image_parent_root_raises_witness :
  find_image (PStr "p0") db0 = Some image_p0 /\
  process_history image_p0 = [] /\
  find_image_parent (PStr "p0") db0
  = (Raise (Exn IndexError "list index out of range"), db0).
Proof.
  split; [reflexivity|]. split; [reflexivity|].
  apply (find_image_parent_root_raises (PStr "p0") db0 image_p0); reflexivity.
Defined.

(** With a history that is not empty, the last id is looked up and what
    [find_image] gives for it is returned. *)
Lemma find_image_parent_last (id : pyval) (db : DB) (img : Image)
    (ancestors : list pyval) (parent_id : pyval) :
  find_image id db = Some img ->
  process_history img = (ancestors ++ [parent_id])%list ->
  find_image_parent id db = (Ok (find_image parent_id db), db).
Proof.
  intros Hf Hh. unfold find_image_parent. rewrite Hf, Hh.
  assert (last_item (ancestors ++ [parent_id]) = Ok parent_id) as ->.
  { unfold last_item. destruct ancestors as [|a l]; simpl; [reflexivity|].
    rewrite last_last. reflexivity. }
  reflexivity.
Qed.

Example find_image_parent_c0 :
  find_image_parent (PStr "c0") db0 = (Ok (Some image_p0), db0).
Proof. reflexivity. Qed.


(** ** update_description *)

Lemma update_description_loop_keeps (id text : pyval) (db : DB)
    (cursor : list Image) (flag : bool) :
  NoDup (map image_id (images db)) ->
  incl cursor (images db) ->
  update_description_loop cursor id text flag db
  = (orb flag (existsb (has_id id) cursor), db).
Proof.
  intros Hnd. revert flag.
  induction cursor as [|image rest IH]; intros flag Hincl; simpl.
  - rewrite orb_false_r. reflexivity.
  - assert (incl rest (images db)) as Hrest
      by (intros x Hx; apply Hincl; right; exact Hx).
    fold (has_id id image). destruct (has_id id image).
    + rewrite Image_save_present;
        [|assumption|apply Hincl; left; reflexivity].
      rewrite IH by assumption. rewrite orb_true_r. reflexivity.
    + rewrite IH by assumption. reflexivity.
Qed.

Lemma update_description_result (id text : pyval) (db : DB) :
  NoDup (map image_id (images db)) ->
  update_description id text db = (existsb (has_id id) (images db), db).
Proof.
  intro Hnd. unfold update_description, Image_objects_all.
  rewrite update_description_loop_keeps;
    [reflexivity|assumption|apply incl_refl].
Qed.

(** C6: for a stored id [update_description] answers [True] and saves the
    record as it was read: the text goes to an attribute that is not a
    field, so the stored description is the old one. *)
Theorem update_description_keeps_old_text (id text : pyval) (db : DB)
    (img : Image) :
  NoDup (map image_id (images db)) ->
  find_image id db = Some img ->
  update_description id text db = (true, db) /\
  option_map description (find_image id (snd (update_description id text db)))
  = Some (description img).
Proof.
  intros Hnd Hf. rewrite update_description_result by assumption.
  assert (existsb (has_id id) (images db) = true) as ->.
  { rewrite find_image_eq in Hf. apply find_some in Hf.
    apply existsb_exists. exists img. exact Hf. }
  split; [reflexivity|]. simpl. rewrite Hf. reflexivity.
Qed.

Lemma NoDup_db0 : NoDup (map image_id (images db0)).
Proof.
  simpl. repeat constructor; simpl; intros H;
    repeat (destruct H as [H|H]; [discriminate H|]); exact H.
Defined.

Lemma update_description_keeps_old_text_witness :
  find_image (PStr "p0") db0 = Some image_p0 /\
  update_description (PStr "p0") (PStr "retouched") db0 = (true, db0) /\
  option_map description
    (find_image (PStr "p0")
       (snd (update_description (PStr "p0") (PStr "retouched") db0)))
  = Some (PStr "original").
Proof.
  split; [reflexivity|].
  apply (update_description_keeps_old_text (PStr "p0") (PStr "retouched")
           db0 image_p0 NoDup_db0).
  reflexivity.
Defined.

(** X18: an id that matches no stored image: nothing changes, the answer is
    [False]. *)
Lemma update_description_absent (id text : pyval) (db : DB) :
  find_image id db = None ->
  update_description id text db = (false, db).
Proof.
  intro Hf. unfold update_description, Image_objects_all.
  rewrite find_image_eq in Hf.
  assert (forall x, In x (images db) -> has_id id x = false) as Hall
    by (intros x Hx; exact (find_none _ _ Hf x Hx)).
  clear Hf. generalize db at 2 3.
  induction (images db) as [|image rest IH]; intro db'; simpl.
  - reflexivity.
  - fold (has_id id image). rewrite (Hall image) by (left; reflexivity).
    apply IH. intros x Hx. apply Hall. right. exact Hx.
Qed.

(** ** add_image: failures of the validator *)

(** The half of the failure behaviour that holds: when the validator
    raises, [add_image] ends with that same exception (class and message),
    which is one of the validator's three classes, and the store is the
    one it started from: no image, no user, no change to a parent. *)
Theorem add_image_invalid_keeps_store (Processing : pyclass) (uid : string)
    (info : pyval) (t : Z) (db : DB) (e : exn) :
  _image_parameter_check Processing info = Raise e ->
  add_image Processing uid info t db = (Raise e, db) /\
  (exn_cls e = TypeError \/ exn_cls e = AttributeError \/
   exn_cls e = ValueError).
Proof.
  intro H. split.
  - rewrite add_image_unfold, H. reflexivity.
  - exact (validator_exn_classes Processing info e H).
Qed.

Lemma add_image_invalid_keeps_store_witness :
  _image_parameter_check Processing_example
    (PDict [("image", PBytes (bytes_of "QUJD")); ("parent_id", PStr "p0")])
  = Raise (Exn AttributeError "image_info must have image_id.") /\
  add_image Processing_example "u1"
    (PDict [("image", PBytes (bytes_of "QUJD")); ("parent_id", PStr "p0")])
    102 db0
  = (Raise (Exn AttributeError "image_info must have image_id."), db0).
Proof.
  split; [reflexivity|].
  apply (add_image_invalid_keeps_store Processing_example "u1"
           (PDict [("image", PBytes (bytes_of "QUJD"));
                   ("parent_id", PStr "p0")])
           102 db0
           (Exn AttributeError "image_info must have image_id.")).
  reflexivity.
Defined.

(** The exceptions of the validator, block by block, on requests that are
    complete up to the block. *)
Example invalid_not_a_dict :
  _image_parameter_check Processing_example (PList [])
  = Raise (Exn TypeError "image_info must be type dict.").
Proof. reflexivity. Qed.

Example invalid_image_str :
  _image_parameter_check Processing_example
    (PDict [("image_id", PStr "c1"); ("image", PStr "QUJD")])
  = Raise (Exn TypeError "image must be type base64.").
Proof. reflexivity. Qed.

Example invalid_width_type :
  _image_parameter_check Processing_example
    (PDict [("image_id", PStr "c1"); ("image", PBytes (bytes_of "QUJD"));
            ("height", PInt 3); ("width", PStr "4")])
  = Raise (Exn TypeError "height must be type int.").
Proof. reflexivity. Qed.

(** The format block raises with the class of a missing field or of a
    wrong type, never with [ValueError]. *)
Lemma check_format_exn (d : pydict) (e : exn) :
  check_format d = Raise e ->
  exn_cls e = AttributeError \/ exn_cls e = TypeError.
Proof.
  unfold check_format. destruct (lookup "format" d) as [v|].
  - destruct v; simpl; try (intro H; inversion H; subst; simpl; tauto).
    destruct (String.eqb name "str"); simpl;
      intro H; inversion H; subst; simpl; tauto.
  - intro H. inversion H; subst; simpl; tauto.
Qed.

(** No request is ever answered with [ValueError]: neither "format
    invalid." nor "process invalid." can come out of the validator. *)
Lemma validator_never_ValueError (Processing : pyclass) (info : pyval)
    (e : exn) :
  _image_parameter_check Processing info = Raise e ->
  exn_cls e <> ValueError.
Proof.
  destruct info; simpl;
    try (intro H; inversion H; subst; simpl; discriminate).
  unfold check_image_id, check_image, check_height_width.
  destruct (lookup "image_id" d) as [v|];
    [destruct (isinstance_str v)|]; simpl;
    try (intro H; inversion H; subst; simpl; discriminate).
  destruct (lookup "image" d) as [img|];
    [destruct (_is_base64 img)|]; simpl;
    try (intro H; inversion H; subst; simpl; discriminate).
  destruct (lookup "height" d) as [h|]; simpl;
    try (intro H; inversion H; subst; simpl; discriminate).
  destruct (lookup "width" d) as [w|]; simpl;
    try (intro H; inversion H; subst; simpl; discriminate).
  destruct (isinstance_int h); simpl;
    try (intro H; inversion H; subst; simpl; discriminate).
  destruct (isinstance_int w); simpl;
    try (intro H; inversion H; subst; simpl; discriminate).
  destruct (check_format d) as [[]|e0] eqn:Hfmt.
  - destruct (check_format_never_ok d) as (e1 & He1). congruence.
  - simpl. intro H. inversion H; subst e0.
    destruct (check_format_exn d e Hfmt) as [-> | ->]; discriminate.
Qed.

(** C4: a request that is well formed up to its format, a [str], is
    answered with the wrong-type error of the format whatever is wrong
    with it: a format outside the five names, an unknown process, a
    processing time of the wrong type or a missing field after the format
    all end in this one exception, with the store unchanged. *)
Theorem add_image_reports_format_type (Processing : pyclass) (uid : string)
    (d : pydict) (t : Z) (db : DB) (id s : string) (img h w : pyval) :
  lookup "image_id" d = Some (PStr id) ->
  lookup "image" d = Some img ->
  _is_base64 img = true ->
  lookup "height" d = Some h ->
  isinstance_int h = true ->
  lookup "width" d = Some w ->
  isinstance_int w = true ->
  lookup "format" d = Some (PStr s) ->
  add_image Processing uid (PDict d) t db
  = (Raise (Exn TypeError "format must be type str"), db).
Proof.
  intros Hid Himg Hb Hh Hhi Hw Hwi Hfmt.
  rewrite add_image_unfold. simpl.
  unfold check_image_id, check_image, check_height_width, check_format.
  rewrite Hid, Himg, Hb, Hh, Hw, Hhi, Hwi, Hfmt. reflexivity.
Qed.

Lemma add_image_reports_format_type_witness :
  add_image Processing_example "u1"
    (PDict (request_fields (PStr "bmp") (PStr "__init__"))) 102 db0
  = (Raise (Exn TypeError "format must be type str"), db0).
Proof.
  apply (add_image_reports_format_type Processing_example "u1"
           (request_fields (PStr "bmp") (PStr "__init__")) 102 db0
           "c1" "bmp" (PBytes (bytes_of "QUJD")) (PInt 3) (PInt 4));
    reflexivity.
Defined.

(** The same answer for an unknown process, for a processing time that
    is text, and for a request that stops after the format. *)
Example add_image_unknown_process :
  add_image Processing_example "u1"
    (PDict (request_fields (PStr "png") (PStr "no_such_process"))) 102 db0
  = (Raise (Exn TypeError "format must be type str"), db0).
Proof. reflexivity. Qed.

Example add_image_processing_time_text :
  add_image Processing_example "u1"
    (PDict [("image_id", PStr "c1"); ("image", PBytes (bytes_of "QUJD"));
            ("height", PInt 3); ("width", PInt 4); ("format", PStr "png");
            ("processing_time", PStr "12"); ("process", PStr "__init__")])
    102 db0
  = (Raise (Exn TypeError "format must be type str"), db0).
Proof. reflexivity. Qed.

Example add_image_missing_process :
  add_image Processing_example "u1"
    (PDict [("image_id", PStr "c1"); ("image", PBytes (bytes_of "QUJD"));
            ("height", PInt 3); ("width", PInt 4); ("format", PStr "png");
            ("processing_time", PInt 12)])
    102 db0
  = (Raise (Exn TypeError "format must be type str"), db0).
Proof. reflexivity. Qed.

(** ** add_image: the steps after the validator *)

Lemma update_user_uploads_images (uid : string) (h : list pyval) (db : DB) :
  images (snd (update_user_uploads uid h db)) = images db.
Proof.
  unfold update_user_uploads, bindM, lift, add_user.
  destruct (first_item h); [|reflexivity].
  destruct (last_item h); [|reflexivity].
  destruct (find_user (PStr uid) db);
    (destruct (setitem _ _ _); reflexivity).
Qed.

Lemma update_user_uploads_empty (uid : string) (db : DB) :
  update_user_uploads uid [] db
  = (Raise (Exn IndexError "list index out of range"), db).
Proof. reflexivity. Qed.
Lemma add_image_validated_images (uid : string) (d : pydict) (t : Z)
    (db : DB) (pid : pyval) (P : Image) (cid : string) :
  lookup "parent_id" d = Some pid ->
  find_image pid db = Some P ->
  lookup "image_id" d = Some (PStr cid) ->
  let P' := set_child_ids P (child_ids P ++ [PStr cid]) in
  let db' := snd (add_image_validated uid d t db) in
  images db' = upsert_image P' (images db) \/
  exists i, image_id i = cid /\
            process_history i = (process_history P ++ [pid])%list /\
            images db' = upsert_image i (upsert_image P' (images db)).
Proof.
  intros Hp Hf Hid P' db'. subst db'.
  unfold add_image_validated. rewrite Hp.
  unfold bindM, lift, ret, _add_child, getitem. rewrite Hf, Hid.
  simpl process_history. fold P'.
  pose proof (update_user_uploads_images uid
                (process_history P ++ [pid]) (Image_save P' db)) as Hu.
  destruct (update_user_uploads uid _ (Image_save P' db)) as [r db2].
  simpl in Hu.
  destruct r; [|left; exact Hu].
  destruct (lookup "width" d); [|left; exact Hu].
  destruct (lookup "height" d); [|left; exact Hu].
  destruct (lookup "format" d); [|left; exact Hu].
  destruct (lookup "processing_time" d); [|left; exact Hu].
  destruct (lookup "process" d); [|left; exact Hu].
  right. simpl. eexists. split; [|split]; [| |rewrite Hu; reflexivity];
    reflexivity.
Qed.

Lemma fresh_id_differs (cid : string) (pid : pyval) (P i : Image)
    (db : DB) :
  find_image pid db = Some P ->
  find_image (PStr cid) db = None ->
  image_id i = cid ->
  has_id pid i = false.
Proof.
  intros Hf Hnone Hi.
  pose proof (find_image_id _ _ _ Hf) as ->.
  destruct (has_id (PStr (image_id P)) i) eqn:E; [|reflexivity].
  unfold has_id in E. apply str_eq_true in E. inversion E as [E'].
  rewrite Hi in E'. subst cid. congruence.
Qed.

(** The parent record after the linking step, whatever the outcome of
    the steps that follow it. *)
Lemma add_image_validated_parent (uid : string) (d : pydict)
    (t : Z) (db : DB) (pid : pyval) (P : Image) (cid : string) :
  lookup "parent_id" d = Some pid ->
  find_image pid db = Some P ->
  lookup "image_id" d = Some (PStr cid) ->
  find_image (PStr cid) db = None ->
  find_image pid (snd (add_image_validated uid d t db))
  = Some (set_child_ids P (child_ids P ++ [PStr cid])).
Proof.
  intros Hp Hf Hid Hfresh.
  rewrite find_image_eq in *.
  assert (find (has_id pid)
            (upsert_image (set_child_ids P (child_ids P ++ [PStr cid]))
               (images db))
          = Some (set_child_ids P (child_ids P ++ [PStr cid]))) as Hlinked
    by (apply find_upsert_found with (i := P); [assumption|reflexivity]).
  destruct (add_image_validated_images uid d t db pid P cid Hp Hf Hid)
    as [->|(i & Hi & _ & ->)].
  - exact Hlinked.
  - rewrite find_upsert_other; [exact Hlinked|].
    apply (fresh_id_differs cid pid P i db); assumption.
Qed.

(** C10: when [add_image] links a new image to a stored parent, the
    parent that ends up in the store is the old record with the new id
    appended to its children, whatever happens in the later steps; the
    history that was extended in memory is not the one that is saved. *)
Theorem add_image_validated_parent_frame (uid : string) (d : pydict)
    (t : Z) (db : DB) (pid : pyval) (P : Image) (cid : string) :
  lookup "parent_id" d = Some pid ->
  find_image pid db = Some P ->
  lookup "image_id" d = Some (PStr cid) ->
  find_image (PStr cid) db = None ->
  exists P',
    find_image pid (snd (add_image_validated uid d t db)) = Some P' /\
    P' = set_child_ids P (child_ids P ++ [PStr cid]) /\
    process_history P' = process_history P /\
    description P' = description P.
Proof.
  intros Hp Hf Hid Hfresh.
  exists (set_child_ids P (child_ids P ++ [PStr cid])).
  split; [|repeat split].
  apply add_image_validated_parent; assumption.
Qed.

Lemma add_image_validated_parent_frame_witness :
  exists P',
    find_image (PStr "p0")
      (snd (add_image_validated "u1" request_child 102 db0)) = Some P' /\
    P' = set_child_ids image_p0 [PStr "c0"; PStr "c1"] /\
    process_history P' = process_history image_p0 /\
    description P' = description image_p0.
Proof.
  apply (add_image_validated_parent_frame "u1" request_child 102 db0
           (PStr "p0") image_p0 "c1"); reflexivity.
Defined.

(** ** The ledger *)

Lemma find_upsert_user_same (u : User) (l : list User) :
  find (has_uid (PStr (User_user_id u))) (upsert_user u l) = Some u.
Proof.
  assert (has_uid (PStr (User_user_id u)) u = true) as Hu
    by (apply str_eq_true; reflexivity).
  induction l as [|x l IH]; cbn [upsert_user find].
  - rewrite Hu. reflexivity.
  - destruct (String.eqb (User_user_id x) (User_user_id u)) eqn:E;
      cbn [find].
    + rewrite Hu. reflexivity.
    + unfold has_uid at 1. simpl. rewrite E. exact IH.
Qed.

Lemma find_user_save_same (u : User) (db : DB) :
  find_user (PStr (User_user_id u)) (User_save u db) = Some u.
Proof. exact (find_upsert_user_same u (users db)). Qed.

Lemma key_eqb_refl (k : pyval) : hashable k = true -> key_eqb k k = true.
Proof.
  destruct k; simpl; intro H; try discriminate; try reflexivity.
  - destruct b; reflexivity.
  - apply Z.eqb_refl.
  - apply String.eqb_refl.
  - unfold key_eqb, bytes_eqb. simpl as_int. cbv iota.
    destruct (list_eq_dec byte_eq_dec b b) as [|n];
      [reflexivity|exfalso; apply n; reflexivity].
  - apply String.eqb_refl.
Qed.

Lemma dict_get_set (k v : pyval) (d : list (pyval * pyval)) :
  hashable k = true -> dict_get k (dict_set k v d) = Some v.
Proof.
  intro Hk. induction d as [|[k' x] d IH]; simpl.
  - rewrite key_eqb_refl by assumption. reflexivity.
  - destruct (key_eqb k' k) eqn:E; simpl; rewrite E; [reflexivity|exact IH].
Qed.

(** With a history that is not empty and starts with a hashable id, the
    user (created when missing) ends up with [uploads[root] = recent]. *)
Lemma update_user_uploads_ok (uid : string) (root : pyval)
    (rest : list pyval) (db : DB) :
  hashable root = true ->
  exists db',
    update_user_uploads uid (root :: rest) db = (Ok tt, db') /\
    images db' = images db /\
    exists u, find_user (PStr uid) db' = Some u /\
              dict_get root (uploads u) = Some (last rest root).
Proof.
  intro Hh. unfold update_user_uploads, bindM, lift, add_user, setitem.
  simpl first_item. simpl last_item. cbv iota beta. rewrite Hh.
  destruct (find_user (PStr uid) db) as [user|] eqn:Hu.
  - eexists. split; [reflexivity|]. split; [reflexivity|].
    assert (User_user_id user = uid) as Hid.
    { unfold find_user in Hu. apply find_some in Hu. destruct Hu as [_ Hu].
      apply str_eq_true in Hu. congruence. }
    eexists. split.
    + rewrite <- Hid.
      exact (find_user_save_same
               (set_uploads user (dict_set root (last rest root)
                                    (uploads user))) db).
    + simpl. apply dict_get_set. assumption.
  - eexists. split; [reflexivity|]. split; [reflexivity|].
    eexists. split.
    + exact (find_user_save_same
               (set_uploads (mkUser uid [])
                  (dict_set root (last rest root) []))
               (User_save (mkUser uid []) db)).
    + simpl. rewrite key_eqb_refl by assumption. reflexivity.
Qed.

(** The lineage step by itself: run on a request whose fields are all
    there, with a stored parent and a fresh id, lines 55 to 88 store the
    new image with the parent's history followed by the parent's id and
    add the new id to the parent's children. *)
Lemma add_image_validated_child_ok (uid : string) (d : pydict) (t : Z)
    (db : DB) (pid : pyval) (P : Image) (cid : string)
    (w h fmt ptime proc : pyval) :
  lookup "parent_id" d = Some pid ->
  find_image pid db = Some P ->
  lookup "image_id" d = Some (PStr cid) ->
  find_image (PStr cid) db = None ->
  lookup "width" d = Some w ->
  lookup "height" d = Some h ->
  lookup "format" d = Some fmt ->
  lookup "processing_time" d = Some ptime ->
  lookup "process" d = Some proc ->
  hashable (hd pid (process_history P)) = true ->
  exists db' text,
    add_image_validated uid d t db = (Ok tt, db') /\
    find_image (PStr cid) db'
    = Some (mkImage cid PNone uid t w h fmt text []
              (process_history P ++ [pid]) ptime proc) /\
    find_image pid db'
    = Some (set_child_ids P (child_ids P ++ [PStr cid])).
Proof.
  intros Hp Hf Hid Hfresh Hw Hh Hfmt Hpt Hpr Hhash.
  pose proof (add_image_validated_parent uid d t db pid P cid
                Hp Hf Hid Hfresh) as HP'.
  revert HP'.
  unfold add_image_validated. rewrite Hp.
  unfold bindM, lift, ret, _add_child, getitem.
  rewrite Hf, Hid, Hw, Hh, Hfmt, Hpt, Hpr.
  simpl process_history.
  assert (exists root rest,
             (process_history P ++ [pid])%list = root :: rest /\
             hashable root = true) as (root & rest & -> & Hroot).
  { destruct (process_history P) as [|a l]; simpl in *; eauto. }
  destruct (update_user_uploads_ok uid root rest
              (Image_save (set_child_ids P (child_ids P ++ [PStr cid])) db)
              Hroot) as (db2 & -> & Himgs & _).
  simpl. intro HP'.
  eexists. eexists. split; [reflexivity|]. split; [|exact HP'].
  rewrite find_image_eq. simpl.
  exact (find_upsert_same
           (mkImage cid PNone uid t w h fmt _ [] (root :: rest) ptime proc)
           (images db2)).
Qed.

(** ** add_image as a whole *)

(** C1: a request that names a stored parent does not get its image
    stored: [add_image] ends in an exception of the validator, the store
    is the one it started from, and the parent has no new child. *)
Theorem add_image_child_not_stored (Processing : pyclass) (uid : string)
    (d : pydict) (t : Z) (db : DB) (pid : pyval) (P : Image) :
  lookup "parent_id" d = Some pid ->
  find_image pid db = Some P ->
  (exists e, add_image Processing uid (PDict d) t db = (Raise e, db)) /\
  find_image pid (snd (add_image Processing uid (PDict d) t db)) = Some P.
Proof.
  intros _ Hf.
  destruct (add_image_always_raises Processing uid (PDict d) t db)
    as (e & He).
  rewrite He. split; [eauto|exact Hf].
Qed.

Lemma add_image_child_not_stored_witness :
  (exists e,
      add_image Processing_example "u1" (PDict request_child) 102 db0
      = (Raise e, db0)) /\
  find_image (PStr "p0")
    (snd (add_image Processing_example "u1" (PDict request_child) 102 db0))
  = Some image_p0.
Proof.
  apply (add_image_child_not_stored Processing_example "u1" request_child
           102 db0 (PStr "p0") image_p0); reflexivity.
Defined.

Example add_image_request_child :
  add_image Processing_example "u1" (PDict request_child) 102 db0
  = (Raise (Exn TypeError "format must be type str"), db0).
Proof. reflexivity. Qed.

(** The same request handed to the steps after the validator. *)
Example add_image_validated_request_child :
  add_image_validated "u1" request_child 102 db0
  = (Ok tt,
     mkDB [set_child_ids image_p0 [PStr "c0"; PStr "c1"]; image_c0;
           mkImage "c1" PNone "u1" 102 (PInt 4) (PInt 3) (PStr "png")
             (PStr "None") [] [PStr "p0"] (PInt 12) (PStr "reverse_video")]
          [mkUser "u1" [(PStr "p0", PStr "p0")]]).
Proof. reflexivity. Qed.

(** C2: a request without [parent_id] does not get its image stored
    either.  The validator raises; and the steps after it, given the
    request, stop at [process_history[0]] of the empty history before a
    user or an image is saved. *)
Theorem add_image_root_not_stored (Processing : pyclass) (uid : string)
    (d : pydict) (t : Z) (db : DB) :
  lookup "parent_id" d = None ->
  (exists e, add_image Processing uid (PDict d) t db = (Raise e, db)) /\
  add_image_validated uid d t db
  = (Raise (Exn IndexError "list index out of range"), db).
Proof.
  intro Hp. split.
  - apply add_image_always_raises.
  - unfold add_image_validated. rewrite Hp. reflexivity.
Qed.

Lemma add_image_root_not_stored_witness :
  lookup "parent_id" request_root = None /\
  (exists e,
      add_image Processing_example "u2" (PDict request_root) 102 db0
      = (Raise e, db0)) /\
  add_image_validated "u2" request_root 102 db0
  = (Raise (Exn IndexError "list index out of range"), db0).
Proof.
  split; [reflexivity|].
  apply (add_image_root_not_stored Processing_example "u2" request_root
           102 db0).
  reflexivity.
Defined.

Example add_image_request_root :
  add_image Processing_example "u2" (PDict request_root) 102 db0
  = (Raise (Exn TypeError "format must be type str"), db0).
Proof. reflexivity. Qed.

(** * Further properties *)

(** ** The validator, request by request *)

(** X1: the validator returns for no request: every call ends in one of its
    exceptions. *)
Theorem validator_accepts_nothing (Processing : pyclass) (info : pyval) :
  is_ok (_image_parameter_check Processing info) = false.
Proof.
  destruct (_image_parameter_check_never_ok Processing info) as (e & ->).
  reflexivity.
Qed.

(** X2: an image payload given as text is turned down, whatever the text: a
    request with a [str] id gets the base64 error. *)
Theorem validator_rejects_text_image (Processing : pyclass) (d : pydict)
    (id payload : string) :
  lookup "image_id" d = Some (PStr id) ->
  lookup "image" d = Some (PStr payload) ->
  _image_parameter_check Processing (PDict d)
  = Raise (Exn TypeError "image must be type base64.").
Proof.
  intros Hid Himg. simpl. unfold check_image_id, check_image.
  rewrite Hid, Himg. simpl isinstance_str. rewrite _is_base64_str.
  reflexivity.
Qed.

Lemma validator_rejects_text_image_witness :
  _image_parameter_check Processing_example
    (PDict [("image_id", PStr "c1"); ("image", PStr "QUJD");
            ("height", PInt 3); ("width", PInt 4)])
  = Raise (Exn TypeError "image must be type base64.").
Proof.
  apply (validator_rejects_text_image Processing_example
           [("image_id", PStr "c1"); ("image", PStr "QUJD");
            ("height", PInt 3); ("width", PInt 4)] "c1" "QUJD");
    reflexivity.
Defined.

(** X3: an [image_id] that is there but is not a [str] is reported with the
    class of a missing field, [AttributeError]. *)
Theorem validator_image_id_wrong_type (Processing : pyclass) (d : pydict)
    (v : pyval) :
  lookup "image_id" d = Some v ->
  isinstance_str v = false ->
  _image_parameter_check Processing (PDict d)
  = Raise (Exn AttributeError "image_id must be type str.").
Proof.
  intros Hid Hv. simpl. unfold check_image_id. rewrite Hid, Hv. reflexivity.
Qed.

Lemma validator_image_id_wrong_type_witness :
  _image_parameter_check Processing_example
    (PDict (("image_id", PInt 7) :: request_root))
  = Raise (Exn AttributeError "image_id must be type str.").
Proof.
  apply (validator_image_id_wrong_type Processing_example
           (("image_id", PInt 7) :: request_root) (PInt 7)); reflexivity.
Defined.

(** X4: a width of the wrong type, on a request that is well formed up to
    there, is reported with the message of the height. *)
Theorem validator_width_wrong_type (Processing : pyclass) (d : pydict)
    (id : string) (img h w : pyval) :
  lookup "image_id" d = Some (PStr id) ->
  lookup "image" d = Some img ->
  _is_base64 img = true ->
  lookup "height" d = Some h ->
  isinstance_int h = true ->
  lookup "width" d = Some w ->
  isinstance_int w = false ->
  _image_parameter_check Processing (PDict d)
  = Raise (Exn TypeError "height must be type int.").
Proof.
  intros Hid Himg Hb Hh Hhi Hw Hwi. simpl.
  unfold check_image_id, check_image, check_height_width.
  rewrite Hid, Himg, Hb, Hh, Hw, Hhi, Hwi. reflexivity.
Qed.

Lemma validator_width_wrong_type_witness :
  _image_parameter_check Processing_example
    (PDict [("image_id", PStr "c1"); ("image", PBytes (bytes_of "QUJD"));
            ("height", PInt 3); ("width", PStr "4"); ("format", PStr "png")])
  = Raise (Exn TypeError "height must be type int.").
Proof.
  apply (validator_width_wrong_type Processing_example
           [("image_id", PStr "c1"); ("image", PBytes (bytes_of "QUJD"));
            ("height", PInt 3); ("width", PStr "4"); ("format", PStr "png")]
           "c1" (PBytes (bytes_of "QUJD")) (PInt 3) (PStr "4"));
    reflexivity.
Defined.


(** ** base64 round trip *)

Lemma b64_char_index (n : N) :
  (n < 64)%N ->
  Byte.eqb (b64_char n) b64_pad = false /\ b64_index (b64_char n) = Some n.
Proof.
  intro Hn.
  assert (forallb
            (fun i =>
               let m := N.of_nat i in
               andb (negb (Byte.eqb (b64_char m) b64_pad))
                    (match b64_index (b64_char m) with
                     | Some k => N.eqb k m
                     | None => false
                     end))
            (seq 0 64) = true) as Hall by (vm_compute; reflexivity).
  rewrite forallb_forall in Hall.
  specialize (Hall (N.to_nat n)).
  rewrite N2Nat.id in Hall. cbv zeta in Hall.
  assert (In (N.to_nat n) (seq 0 64)) as Hin by (apply in_seq; lia).
  apply Hall in Hin. apply andb_prop in Hin. destruct Hin as [H1 H2].
  split.
  - destruct (Byte.eqb (b64_char n) b64_pad); [discriminate|reflexivity].
  - destruct (b64_index (b64_char n)) as [k|]; [|discriminate].
    apply N.eqb_eq in H2. congruence.
Qed.

Lemma a2b_base64_sextet (n : N) (rest : list byte) (quad_pos : nat)
    (leftchar : N) (pads : nat) (out : list byte) :
  (n < 64)%N ->
  a2b_base64 (b64_char n :: rest) quad_pos leftchar pads out =
  match quad_pos with
  | O => a2b_base64 rest 1 n 0 out
  | 1%nat =>
      a2b_base64 rest 2 (n mod 16) 0
        (byte_of_N' (leftchar * 4 + n / 16) :: out)
  | 2%nat =>
      a2b_base64 rest 3 (n mod 4) 0
        (byte_of_N' (leftchar * 16 + n / 4) :: out)
  | _ => a2b_base64 rest 0 0 0 (byte_of_N' (leftchar * 64 + n) :: out)
  end%N.
Proof.
  intro Hn. destruct (b64_char_index n Hn) as [Hpad Hidx].
  cbn [a2b_base64]. rewrite Hpad, Hidx. reflexivity.
Qed.

Lemma byte_of_to_N (a : byte) (n : N) : n = Byte.to_N a -> byte_of_N' n = a.
Proof. intros ->. unfold byte_of_N'. rewrite Byte.of_to_N. reflexivity. Qed.

Lemma to_N_lt (a : byte) : (Byte.to_N a < 256)%N.
Proof. pose proof (Byte.to_N_bounded a). lia. Qed.

Lemma div_add_small (a b k : N) :
  (b < k -> (a * k + b) / k = a /\ (a * k + b) mod k = b)%N.
Proof.
  intro Hb. split.
  - symmetry. apply (N.div_unique _ k a b); lia.
  - symmetry. apply (N.mod_unique _ k a b); lia.
Qed.

(** The four sextets of three bytes, and the bytes back from them. *)
Lemma sextets_spec (x y z : N) :
  (x < 256 -> y < 256 -> z < 256 ->
   (x / 4 < 64 /\ x mod 4 * 16 + y / 16 < 64 /\
    y mod 16 * 4 + z / 64 < 64 /\ z mod 64 < 64) /\
   x / 4 * 4 + (x mod 4 * 16 + y / 16) / 16 = x /\
   (x mod 4 * 16 + y / 16) mod 16 * 16 + (y mod 16 * 4 + z / 64) / 4 = y /\
   (y mod 16 * 4 + z / 64) mod 4 * 64 + z mod 64 = z)%N.
Proof.
  intros Hx Hy Hz.
  pose proof (N.div_mod x 4) as Ex. pose proof (N.mod_lt x 4) as Rx.
  pose proof (N.div_mod y 16) as Ey. pose proof (N.mod_lt y 16) as Ry.
  pose proof (N.div_mod z 64) as Ez. pose proof (N.mod_lt z 64) as Rz.
  generalize dependent (x / 4)%N. generalize dependent (x mod 4)%N.
  generalize dependent (y / 16)%N. generalize dependent (y mod 16)%N.
  generalize dependent (z / 64)%N. generalize dependent (z mod 64)%N.
  intros rz Rz qz Ez ry Ry qy Ey rx Rx qx Ex.
  assert (qy < 16)%N as Hqy by lia.
  assert (qz < 4)%N as Hqz by lia.
  destruct (div_add_small rx qy 16 Hqy) as [-> ->].
  destruct (div_add_small ry qz 4 Hqz) as [-> ->].
  lia.
Qed.

Lemma list_ind3 (A : Type) (P : list A -> Prop) :
  P [] -> (forall a, P [a]) -> (forall a b, P [a; b]) ->
  (forall a b c l, P l -> P (a :: b :: c :: l)) ->
  forall l, P l.
Proof.
  intros H0 H1 H2 H3 l.
  assert (P l /\ (forall a, P (a :: l)) /\ (forall a b, P (a :: b :: l)))
    as [H _].
  { induction l as [|x l (IH0 & IH1 & IH2)]; [auto|].
    split; [apply IH1|]. split; [intro a; apply IH2|].
    intros a b. apply H3. exact IH0. }
  exact H.
Qed.

Lemma a2b_base64_encoded (raw : list byte) :
  forall (leftchar : N) (pads : nat) (out : list byte),
    a2b_base64 (b64encode raw) 0 leftchar pads out
    = Some (rev out ++ raw)%list.
Proof.
  induction raw as [|a|a b|a b c raw IH] using list_ind3;
    intros leftchar pads out.
  - simpl. rewrite app_nil_r. reflexivity.
  - destruct (sextets_spec (Byte.to_N a) 0 0 (to_N_lt a) eq_refl eq_refl)
      as ((B1 & B2 & _ & _) & E1 & _ & _).
    change (0 / 16)%N with 0%N in *. rewrite N.add_0_r in *.
    cbn [b64encode].
    rewrite (a2b_base64_sextet _ _ 0) by exact B1.
    rewrite (a2b_base64_sextet _ _ 1) by exact B2.
    rewrite (byte_of_to_N a _ E1).
    reflexivity.
  - destruct (sextets_spec (Byte.to_N a) (Byte.to_N b) 0
                (to_N_lt a) (to_N_lt b) eq_refl)
      as ((B1 & B2 & B3 & _) & E1 & E2 & _).
    change (0 / 64)%N with 0%N in *. rewrite N.add_0_r in *.
    cbn [b64encode].
    rewrite (a2b_base64_sextet _ _ 0) by exact B1.
    rewrite (a2b_base64_sextet _ _ 1) by exact B2.
    rewrite (a2b_base64_sextet _ _ 2) by exact B3.
    rewrite (byte_of_to_N a _ E1).
    rewrite (byte_of_to_N b _ E2).
    simpl. rewrite <- !app_assoc. reflexivity.
  - destruct (sextets_spec (Byte.to_N a) (Byte.to_N b) (Byte.to_N c)
                (to_N_lt a) (to_N_lt b) (to_N_lt c))
      as ((B1 & B2 & B3 & B4) & E1 & E2 & E3).
    cbn [b64encode].
    rewrite (a2b_base64_sextet _ _ 0) by exact B1.
    rewrite (a2b_base64_sextet _ _ 1) by exact B2.
    rewrite (a2b_base64_sextet _ _ 2) by exact B3.
    rewrite (a2b_base64_sextet _ _ 3) by exact B4.
    rewrite (byte_of_to_N a _ E1).
    rewrite (byte_of_to_N b _ E2).
    rewrite (byte_of_to_N c _ E3).
    rewrite IH. simpl. rewrite <- !app_assoc. reflexivity.
Qed.

(** Decoding what [b64encode] produced gives the bytes back. *)
Lemma b64decode_b64encode (raw : list byte) :
  b64decode (b64encode raw) = Some raw.
Proof. unfold b64decode. rewrite a2b_base64_encoded. reflexivity. Qed.

Lemma bytes_eqb_eq (a b : list byte) : bytes_eqb a b = true <-> a = b.
Proof.
  unfold bytes_eqb. destruct (list_eq_dec byte_eq_dec a b); split;
    intro H; congruence.
Qed.

(** X6: [_is_base64] accepts a [bytes] value exactly when it is the padded
    base64 encoding of some byte string. *)
Theorem _is_base64_bytes_iff (b : list byte) :
  _is_base64 (PBytes b) = true <-> exists raw, b = b64encode raw.
Proof.
  simpl. split.
  - destruct (b64decode b) as [raw|]; [|discriminate].
    intro H. apply bytes_eqb_eq in H. exists raw. symmetry. exact H.
  - intros (raw & ->). rewrite b64decode_b64encode.
    apply bytes_eqb_eq. reflexivity.
Qed.

(** ** Users and the ledger *)

Lemma find_upsert_user_other (v : pyval) (u : User) (l : list User) :
  has_uid v u = false ->
  find (has_uid v) (upsert_user u l) = find (has_uid v) l.
Proof.
  intro Hu. induction l as [|x l IH]; cbn [upsert_user find].
  - rewrite Hu. reflexivity.
  - destruct (String.eqb (User_user_id x) (User_user_id u)) eqn:E; cbn [find].
    + apply String.eqb_eq in E.
      assert (has_uid v x = false) as Hx
        by (unfold has_uid in *; rewrite E; exact Hu).
      rewrite Hu, Hx. reflexivity.
    + rewrite IH. reflexivity.
Qed.

Lemma find_user_save_other (v : pyval) (u : User) (db : DB) :
  v <> PStr (User_user_id u) ->
  find_user v (User_save u db) = find_user v db.
Proof.
  intro Hv. apply (find_upsert_user_other v u (users db)).
  destruct (has_uid v u) eqn:E; [|reflexivity].
  unfold has_uid in E. apply str_eq_true in E. contradiction.
Qed.

(** X7: when [add_user] returns, the id was not taken before, the user it
    returns has that id and no uploads and is the one found under the id
    afterwards, and nothing else in the store has changed. *)
Theorem add_user_success (uid : string) (db db' : DB) (u : User) :
  add_user uid db = (Ok u, db') ->
  find_user (PStr uid) db = None /\
  u = mkUser uid [] /\
  find_user (PStr uid) db' = Some u /\
  images db' = images db /\
  forall v, v <> PStr uid -> find_user v db' = find_user v db.
Proof.
  unfold add_user.
  destruct (find_user (PStr uid) db) eqn:Hf; intro H; inversion H; subst.
  split; [reflexivity|]. split; [reflexivity|]. split; [|split].
  - exact (find_user_save_same (mkUser uid []) db).
  - reflexivity.
  - intros v Hv. apply find_user_save_other. exact Hv.
Qed.

Lemma add_user_success_witness :
  find_user (PStr "u2") db0 = None /\
  mkUser "u2" [] = mkUser "u2" [] /\
  find_user (PStr "u2") (User_save (mkUser "u2" []) db0)
  = Some (mkUser "u2" []) /\
  images (User_save (mkUser "u2" []) db0) = images db0 /\
  forall v, v <> PStr "u2" ->
            find_user v (User_save (mkUser "u2" []) db0) = find_user v db0.
Proof.
  apply (add_user_success "u2" db0 (User_save (mkUser "u2" []) db0)
           (mkUser "u2" [])).
  reflexivity.
Defined.

(** X8: [add_user] a second time with the same id raises and leaves the
    store as the first call left it. *)
Theorem add_user_twice (uid : string) (db db' : DB) (u : User) :
  add_user uid db = (Ok u, db') ->
  add_user uid db' = (Raise (Exn ValueError "User already exists!"), db').
Proof.
  unfold add_user at 1.
  destruct (find_user (PStr uid) db) eqn:Hf; intro H; inversion H; subst.
  unfold add_user.
  pose proof (find_user_save_same (mkUser uid []) db) as Hs.
  simpl User_user_id in Hs. rewrite Hs. reflexivity.
Qed.

Lemma add_user_twice_witness :
  add_user "u2" (User_save (mkUser "u2" []) db0)
  = (Raise (Exn ValueError "User already exists!"),
     User_save (mkUser "u2" []) db0).
Proof.
  apply (add_user_twice "u2" db0 (User_save (mkUser "u2" []) db0)
           (mkUser "u2" [])).
  reflexivity.
Defined.

Lemma update_user_uploads_unhashable (uid : string) (root : pyval)
    (rest : list pyval) (db : DB) :
  hashable root = false ->
  exists e db', update_user_uploads uid (root :: rest) db = (Raise e, db').
Proof.
  intro Hh. unfold update_user_uploads, bindM, lift, add_user, setitem.
  simpl first_item. simpl last_item. cbv iota beta. rewrite Hh.
  destruct (find_user (PStr uid) db); eauto.
Qed.

(** What a call of [update_user_uploads] that returns has done. *)
Lemma update_user_uploads_returned (uid : string) (history : list pyval)
    (db db' : DB) :
  update_user_uploads uid history db = (Ok tt, db') ->
  exists root rest,
    history = root :: rest /\
    hashable root = true /\
    images db' = images db /\
    exists u, find_user (PStr uid) db' = Some u /\
              dict_get root (uploads u) = Some (last rest root).
Proof.
  intro Hok. destruct history as [|root rest]; [discriminate Hok|].
  exists root, rest. split; [reflexivity|].
  destruct (hashable root) eqn:Hh.
  - split; [reflexivity|].
    destruct (update_user_uploads_ok uid root rest db Hh)
      as (db2 & Hrun & Himgs & Hu).
    rewrite Hrun in Hok. inversion Hok; subst db2. split; assumption.
  - destruct (update_user_uploads_unhashable uid root rest db Hh)
      as (e & db2 & Hrun).
    rewrite Hrun in Hok. discriminate Hok.
Qed.

(** X9: when [update_user_uploads] returns, the history was not empty, the
    user is stored with [uploads[root] = recent], root and recent being
    the first and the last id of the history, and no image was touched. *)
Theorem update_user_uploads_success (uid : string) (history : list pyval)
    (db db' : DB) :
  update_user_uploads uid history db = (Ok tt, db') ->
  exists root rest,
    history = root :: rest /\
    images db' = images db /\
    exists u, find_user (PStr uid) db' = Some u /\
              dict_get root (uploads u) = Some (last rest root).
Proof.
  intro Hok.
  destruct (update_user_uploads_returned uid history db db' Hok)
    as (root & rest & Hh & _ & Himgs & Hu).
  exists root, rest. repeat split; assumption.
Qed.

Lemma update_user_uploads_success_witness :
  exists root rest,
    [PStr "p0"; PStr "c0"] = root :: rest /\
    images (User_save (mkUser "u1" [(PStr "p0", PStr "c0")]) db0)
    = images db0 /\
    exists u,
      find_user (PStr "u1")
        (User_save (mkUser "u1" [(PStr "p0", PStr "c0")]) db0) = Some u /\
      dict_get root (uploads u) = Some (last rest root).
Proof.
  apply (update_user_uploads_success "u1" [PStr "p0"; PStr "c0"] db0
           (User_save (mkUser "u1" [(PStr "p0", PStr "c0")]) db0)).
  reflexivity.
Defined.

(** X10: when the user was not stored and [update_user_uploads] returns,
    the user has been created and holds the one entry, root to recent. *)
Theorem update_user_uploads_success_new_user (uid : string) (root : pyval)
    (rest : list pyval) (db db' : DB) :
  find_user (PStr uid) db = None ->
  update_user_uploads uid (root :: rest) db = (Ok tt, db') ->
  find_user (PStr uid) db' = Some (mkUser uid [(root, last rest root)]).
Proof.
  intros Hf. unfold update_user_uploads, bindM, lift, add_user, setitem.
  simpl first_item. simpl last_item. cbv iota beta. rewrite Hf.
  destruct (hashable root); intro Hok; inversion Hok; subst db'.
  exact (find_user_save_same (mkUser uid [(root, last rest root)])
           (User_save (mkUser uid []) db)).
Qed.

Lemma update_user_uploads_success_new_user_witness :
  find_user (PStr "u2")
    (User_save (mkUser "u2" [(PStr "p0", PStr "p0")])
       (User_save (mkUser "u2" []) db0))
  = Some (mkUser "u2" [(PStr "p0", PStr "p0")]).
Proof.
  apply (update_user_uploads_success_new_user "u2" (PStr "p0") [] db0
           (User_save (mkUser "u2" [(PStr "p0", PStr "p0")])
              (User_save (mkUser "u2" []) db0)));
    reflexivity.
Defined.

(** Two keys equal to a third are equal to each other. *)
Lemma key_eqb_common (k a b : pyval) :
  key_eqb k a = true -> key_eqb k b = true -> key_eqb a b = true.
Proof.
  destruct k, a; cbv [key_eqb as_int]; try discriminate;
    destruct b; cbv [key_eqb as_int]; try discriminate; try reflexivity;
    rewrite ?Z.eqb_eq, ?String.eqb_eq, ?bytes_eqb_eq; try congruence;
    repeat match goal with
           | x : bool |- _ => destruct x
           end; congruence.
Qed.

Lemma dict_get_set_other (k0 key v : pyval) (d : list (pyval * pyval)) :
  key_eqb key k0 = false ->
  dict_get k0 (dict_set key v d) = dict_get k0 d.
Proof.
  intro Hne. induction d as [|[k x] d IH]; simpl.
  - rewrite Hne. reflexivity.
  - destruct (key_eqb k key) eqn:E; simpl.
    + destruct (key_eqb k k0) eqn:E0; [|reflexivity].
      rewrite (key_eqb_common k key k0 E E0) in Hne. discriminate.
    + destruct (key_eqb k k0); [reflexivity|exact IH].
Qed.

(** X11: the entries of the other roots stay as they were. *)
Theorem update_user_uploads_keeps_other_roots (uid : string)
    (root k0 : pyval) (rest : list pyval) (db : DB) (u : User) :
  find_user (PStr uid) db = Some u ->
  hashable root = true ->
  key_eqb root k0 = false ->
  exists u',
    find_user (PStr uid) (snd (update_user_uploads uid (root :: rest) db))
    = Some u' /\
    dict_get k0 (uploads u') = dict_get k0 (uploads u).
Proof.
  intros Hf Hh Hne.
  unfold update_user_uploads, bindM, lift, add_user, setitem.
  simpl first_item. simpl last_item. cbv iota beta. rewrite Hf, Hh.
  simpl snd.
  assert (User_user_id u = uid) as Hid.
  { unfold find_user in Hf. apply find_some in Hf. destruct Hf as [_ Hf].
    apply str_eq_true in Hf. congruence. }
  eexists. split.
  - rewrite <- Hid.
    exact (find_user_save_same
             (set_uploads u (dict_set root (last rest root) (uploads u)))
             db).
  - simpl. apply dict_get_set_other. exact Hne.
Qed.

Lemma update_user_uploads_keeps_other_roots_witness :
  exists u',
    find_user (PStr "u1")
      (snd (update_user_uploads "u1" [PStr "q0"; PStr "q1"] db0))
    = Some u' /\
    dict_get (PStr "p0") (uploads u') = Some (PStr "p0").
Proof.
  apply (update_user_uploads_keeps_other_roots "u1" (PStr "q0") (PStr "p0")
           [PStr "q1"] db0 (mkUser "u1" [(PStr "p0", PStr "p0")]));
    reflexivity.
Defined.

(** ** Lookups and links *)

(** X12: [find_image] is an exact match on the id: what it returns is stored
    under the argument, which is then a [str], and it returns nothing only
    when no stored id equals the argument. *)
Theorem find_image_exact (v : pyval) (db : DB) :
  (forall i, find_image v db = Some i ->
             In i (images db) /\ v = PStr (image_id i)) /\
  (find_image v db = None <->
   forall i, In i (images db) -> v <> PStr (image_id i)).
Proof.
  rewrite find_image_eq. split; [|split].
  - intros i H. apply find_some in H. destruct H as [Hin Hid].
    split; [exact Hin|]. apply str_eq_true. exact Hid.
  - intros H i Hin Hv. pose proof (find_none _ _ H i Hin) as Hn.
    unfold has_id in Hn. apply str_eq_true in Hv. congruence.
  - intro H. destruct (find (has_id v) (images db)) as [i|] eqn:E;
      [|reflexivity].
    apply find_some in E. destruct E as [Hin Hid].
    exfalso. apply (H i Hin). apply str_eq_true. exact Hid.
Qed.

Lemma find_image_save_other (v : pyval) (i : Image) (db : DB) :
  v <> PStr (image_id i) ->
  find_image v (Image_save i db) = find_image v db.
Proof.
  intro Hv. rewrite !find_image_eq. apply find_upsert_other.
  destruct (has_id v i) eqn:E; [|reflexivity].
  unfold has_id in E. apply str_eq_true in E. contradiction.
Qed.

Lemma upsert_image_length_found (i : Image) (l : list Image) :
  existsb (fun x => String.eqb (image_id x) (image_id i)) l = true ->
  List.length (upsert_image i l) = List.length l.
Proof.
  induction l as [|x l IH]; simpl; [discriminate|].
  destruct (String.eqb (image_id x) (image_id i)); simpl; [reflexivity|].
  intro H. rewrite IH by exact H. reflexivity.
Qed.

Lemma _add_child_found (child_id parent_id : pyval) (db : DB)
    (P : Image) :
  find_image parent_id db = Some P ->
  exists db',
    _add_child child_id parent_id db = (Ok (Some child_id), db') /\
    find_image parent_id db'
    = Some (set_child_ids P (child_ids P ++ [child_id])) /\
    (forall v, v <> parent_id -> find_image v db' = find_image v db) /\
    users db' = users db /\
    List.length (images db') = List.length (images db).
Proof.
  intro Hf. unfold _add_child. rewrite Hf.
  eexists. split; [reflexivity|].
  pose proof (find_image_id _ _ _ Hf) as Hid.
  split; [|split; [|split]].
  - rewrite find_image_eq in *. simpl.
    apply find_upsert_found with (i := P); [exact Hf|reflexivity].
  - intros v Hv. apply find_image_save_other. simpl. congruence.
  - reflexivity.
  - simpl. apply upsert_image_length_found. simpl.
    rewrite find_image_eq in Hf. apply find_some in Hf.
    apply existsb_exists. exists P. split; [apply Hf|apply String.eqb_refl].
Qed.

(** X13: [_add_child] on a stored parent: the child id is returned, the parent
    is saved with the id appended to its children and its other fields
    as they were, and no other record, image or user, changes. *)
Theorem _add_child_links (child_id parent_id : pyval) (db : DB)
    (P : Image) :
  find_image parent_id db = Some P ->
  exists db',
    _add_child child_id parent_id db = (Ok (Some child_id), db') /\
    find_image parent_id db'
    = Some (set_child_ids P (child_ids P ++ [child_id])) /\
    (forall v, v <> parent_id -> find_image v db' = find_image v db) /\
    users db' = users db /\
    List.length (images db') = List.length (images db).
Proof. apply _add_child_found. Qed.

Lemma _add_child_links_witness :
  exists db',
    _add_child (PStr "c1") (PStr "p0") db0 = (Ok (Some (PStr "c1")), db') /\
    find_image (PStr "p0") db'
    = Some (set_child_ids image_p0 [PStr "c0"; PStr "c1"]) /\
    (forall v, v <> PStr "p0" -> find_image v db' = find_image v db0) /\
    users db' = users db0 /\
    List.length (images db') = List.length (images db0).
Proof.
  apply (_add_child_links (PStr "c1") (PStr "p0") db0 image_p0).
  reflexivity.
Defined.

(** X14: the children are a list and [_add_child] does not look into it:
    linking the same child twice records it twice. *)
Theorem _add_child_twice (child_id parent_id : pyval) (db : DB)
    (P : Image) :
  find_image parent_id db = Some P ->
  find_image parent_id
    (snd (_add_child child_id parent_id
            (snd (_add_child child_id parent_id db))))
  = Some (set_child_ids P (child_ids P ++ [child_id; child_id])).
Proof.
  intro Hf.
  destruct (_add_child_found child_id parent_id db P Hf)
    as (db1 & -> & Hf1 & _).
  simpl snd.
  destruct (_add_child_found child_id parent_id db1 _ Hf1)
    as (db2 & -> & Hf2 & _).
  simpl snd. rewrite Hf2. unfold set_child_ids. simpl.
  rewrite <- app_assoc. reflexivity.
Qed.

Lemma _add_child_twice_witness :
  find_image (PStr "p0")
    (snd (_add_child (PStr "c1") (PStr "p0")
            (snd (_add_child (PStr "c1") (PStr "p0") db0))))
  = Some (set_child_ids image_p0 [PStr "c0"; PStr "c1"; PStr "c1"]).
Proof.
  apply (_add_child_twice (PStr "c1") (PStr "p0") db0 image_p0).
  reflexivity.
Defined.

(** X15: [find_image_parent] for an id that is not stored ends in the
    [AttributeError] of reading [process_history] from [None]. *)
Theorem find_image_parent_unknown (id : pyval) (db : DB) :
  find_image id db = None ->
  find_image_parent id db
  = (Raise (Exn AttributeError
              "'NoneType' object has no attribute 'process_history'"), db).
Proof.
  intro Hf. unfold find_image_parent. rewrite Hf. reflexivity.
Qed.

Lemma find_image_parent_unknown_witness :
  find_image_parent (PStr "zz") db0
  = (Raise (Exn AttributeError
              "'NoneType' object has no attribute 'process_history'"), db0).
Proof. apply (find_image_parent_unknown (PStr "zz") db0). reflexivity. Defined.

(** X16: [find_image_parent] on an image with a history that is not empty
    returns what [find_image] gives for the last id of the history, be it
    a record or [None]. *)
Theorem find_image_parent_resolves_last (id : pyval) (db : DB)
    (img : Image) (ancestors : list pyval) (parent_id : pyval) :
  find_image id db = Some img ->
  process_history img = (ancestors ++ [parent_id])%list ->
  find_image_parent id db = (Ok (find_image parent_id db), db).
Proof. apply find_image_parent_last. Qed.

Lemma find_image_parent_resolves_last_witness :
  find_image_parent (PStr "c0") db0 = (Ok (find_image (PStr "p0") db0), db0).
Proof.
  apply (find_image_parent_resolves_last (PStr "c0") db0 image_c0 []
           (PStr "p0")); reflexivity.
Defined.

Lemma update_description_absent_witness :
  update_description (PStr "zz") (PStr "retouched") db0 = (false, db0).
Proof.
  apply (update_description_absent (PStr "zz") (PStr "retouched") db0).
  reflexivity.
Defined.

(** ** remove_image *)

Lemma Image_delete_without (image : Image) (id : pyval) (db : DB) :
  has_id id image = true ->
  Image_delete image db = without_id id db.
Proof.
  intro H. unfold has_id in H. apply str_eq_true in H. subst id.
  reflexivity.
Qed.

Lemma without_id_twice (id : pyval) (db : DB) :
  without_id id (without_id id db) = without_id id db.
Proof.
  unfold without_id. simpl. f_equal.
  induction (images db) as [|x l IH]; simpl; [reflexivity|].
  destruct (has_id id x) eqn:E; simpl; [exact IH|].
  rewrite E. simpl. rewrite IH. reflexivity.
Qed.

Lemma without_id_absent (id : pyval) (db : DB) :
  existsb (has_id id) (images db) = false -> without_id id db = db.
Proof.
  intro H. unfold without_id. destruct db as [imgs usrs]. simpl in *.
  f_equal. induction imgs as [|x l IH]; simpl in *; [reflexivity|].
  apply orb_false_iff in H. destruct H as [Hx Hl].
  rewrite Hx. simpl. rewrite IH by exact Hl. reflexivity.
Qed.

Lemma remove_image_loop_result (id : pyval) (cursor : list Image) :
  forall (removed : bool) (db : DB),
    remove_image_loop cursor id removed db
    = (orb removed (existsb (has_id id) cursor),
       if existsb (has_id id) cursor then without_id id db else db).
Proof.
  induction cursor as [|image rest IH]; intros removed db; simpl.
  - rewrite orb_false_r. reflexivity.
  - fold (has_id id image). destruct (has_id id image) eqn:E; simpl.
    + rewrite IH. rewrite orb_true_r.
      rewrite (Image_delete_without image id db E).
      destruct (existsb (has_id id) rest);
        [rewrite without_id_twice|]; reflexivity.
    + apply IH.
Qed.

(** What [remove_image] returns and leaves: whether the id was stored,
    and the store without the records under that id. *)
Lemma remove_image_result (id : pyval) (db : DB) :
  remove_image id db
  = (existsb (has_id id) (images db), without_id id db).
Proof.
  unfold remove_image, Image_objects_all.
  rewrite remove_image_loop_result. simpl.
  destruct (existsb (has_id id) (images db)) eqn:E; [reflexivity|].
  rewrite without_id_absent by exact E. reflexivity.
Qed.

Lemma find_filter_none (A : Type) (p : A -> bool) (l : list A) :
  find p (filter (fun x => negb (p x)) l) = None.
Proof.
  induction l as [|x l IH]; simpl; [reflexivity|].
  destruct (p x) eqn:E; simpl; [exact IH|]. rewrite E. exact IH.
Qed.

Lemma find_filter_other (A : Type) (p q : A -> bool) (l : list A) :
  (forall x, p x = true -> q x = false) ->
  find p (filter (fun x => negb (q x)) l) = find p l.
Proof.
  intro H. induction l as [|x l IH]; simpl; [reflexivity|].
  destruct (q x) eqn:Eq; simpl.
  - destruct (p x) eqn:Ep; [|exact IH].
    rewrite (H x Ep) in Eq. discriminate.
  - destruct (p x); [reflexivity|exact IH].
Qed.

(** X19: removing a stored image answers [True], and the id is not found
    afterwards. *)
Theorem remove_image_removes (id : pyval) (db : DB) (i : Image) :
  find_image id db = Some i ->
  fst (remove_image id db) = true /\
  find_image id (snd (remove_image id db)) = None.
Proof.
  intro Hf. rewrite remove_image_result. simpl. split.
  - rewrite find_image_eq in Hf. apply find_some in Hf.
    apply existsb_exists. exists i. exact Hf.
  - rewrite find_image_eq. simpl. apply find_filter_none.
Qed.

Lemma remove_image_removes_witness :
  fst (remove_image (PStr "c0") db0) = true /\
  find_image (PStr "c0") (snd (remove_image (PStr "c0") db0)) = None.
Proof.
  apply (remove_image_removes (PStr "c0") db0 image_c0). reflexivity.
Defined.

Lemma remove_image_not_found (id : pyval) (db : DB) :
  find_image id db = None ->
  remove_image id db = (false, db).
Proof.
  intro Hf. rewrite remove_image_result.
  assert (existsb (has_id id) (images db) = false) as E.
  { destruct (existsb (has_id id) (images db)) eqn:E; [|reflexivity].
    apply existsb_exists in E. destruct E as (x & Hin & Hx).
    rewrite find_image_eq in Hf.
    rewrite (find_none _ _ Hf x Hin) in Hx. discriminate. }
  rewrite E, without_id_absent by exact E. reflexivity.
Qed.

(** X20: removing an id that is not stored answers [False] and changes
    nothing. *)
Theorem remove_image_absent (id : pyval) (db : DB) :
  find_image id db = None ->
  remove_image id db = (false, db).
Proof. apply remove_image_not_found. Qed.

Lemma remove_image_absent_witness :
  remove_image (PStr "zz") db0 = (false, db0).
Proof. apply (remove_image_absent (PStr "zz") db0). reflexivity. Defined.

Lemma remove_image_other (id v : pyval) (db : DB) :
  v <> id ->
  find_image v (snd (remove_image id db)) = find_image v db.
Proof.
  intro Hv. rewrite remove_image_result. simpl.
  rewrite !find_image_eq. simpl. apply find_filter_other.
  intros x Hx. destruct (has_id id x) eqn:E; [|reflexivity].
  unfold has_id in *. apply str_eq_true in Hx, E. congruence.
Qed.

(** X21: every other record is left as it was, the users too: a parent keeps
    the removed id among its children and a child keeps it in its
    history. *)
Theorem remove_image_keeps_others (id v : pyval) (db : DB) :
  v <> id ->
  find_image v (snd (remove_image id db)) = find_image v db /\
  users (snd (remove_image id db)) = users db.
Proof.
  intro Hv. split; [apply remove_image_other; exact Hv|].
  rewrite remove_image_result. reflexivity.
Qed.

Lemma remove_image_keeps_others_witness :
  find_image (PStr "p0") (snd (remove_image (PStr "c0") db0))
  = Some image_p0 /\
  users (snd (remove_image (PStr "c0") db0)) = users db0.
Proof.
  apply (remove_image_keeps_others (PStr "c0") (PStr "p0") db0).
  discriminate.
Defined.

(** X22: a second removal of the same id answers [False] and changes
    nothing more. *)
Theorem remove_image_twice (id : pyval) (db : DB) :
  remove_image id (snd (remove_image id db))
  = (false, snd (remove_image id db)).
Proof.
  apply remove_image_not_found. rewrite remove_image_result. simpl.
  rewrite find_image_eq. simpl. apply find_filter_none.
Qed.

(** X17: after the parent of an image is removed, [find_image_parent] on the
    image returns [None]: the id is still the last of its history and is
    looked up, and is not found. *)
Theorem find_image_parent_after_remove (cid pid : string) (db : DB)
    (c : Image) (ancestors : list pyval) :
  find_image (PStr cid) db = Some c ->
  process_history c = (ancestors ++ [PStr pid])%list ->
  cid <> pid ->
  find_image_parent (PStr cid) (snd (remove_image (PStr pid) db))
  = (Ok None, snd (remove_image (PStr pid) db)).
Proof.
  intros Hf Hh Hne.
  assert (PStr cid <> PStr pid) as Hne' by congruence.
  pose proof (remove_image_other (PStr pid) (PStr cid) db Hne') as Hkept.
  rewrite Hf in Hkept.
  rewrite (find_image_parent_last _ _ c ancestors (PStr pid) Hkept Hh).
  rewrite remove_image_result at 1. simpl snd at 1.
  rewrite find_image_eq. simpl. rewrite find_filter_none. reflexivity.
Qed.

Lemma find_image_parent_after_remove_witness :
  find_image_parent (PStr "c0") (snd (remove_image (PStr "p0") db0))
  = (Ok None, snd (remove_image (PStr "p0") db0)).
Proof.
  apply (find_image_parent_after_remove "c0" "p0" db0 image_c0 []);
    [reflexivity|reflexivity|discriminate].
Defined.

(** ** The steps of add_image after the validator *)

(** X23: a request that names a parent which is not stored ends in the
    [AttributeError] of reading [process_history] from [None], before
    anything is written. *)
Theorem add_image_validated_unknown_parent (uid : string) (d : pydict)
    (t : Z) (db : DB) (pid : pyval) :
  lookup "parent_id" d = Some pid ->
  find_image pid db = None ->
  add_image_validated uid d t db
  = (Raise (Exn AttributeError
              "'NoneType' object has no attribute 'process_history'"), db).
Proof.
  intros Hp Hf. unfold add_image_validated, bindM. rewrite Hp, Hf.
  reflexivity.
Qed.

Lemma add_image_validated_unknown_parent_witness :
  add_image_validated "u1"
    (request_root ++ [("parent_id", PStr "zz")])%list 102 db0
  = (Raise (Exn AttributeError
              "'NoneType' object has no attribute 'process_history'"), db0).
Proof.
  apply (add_image_validated_unknown_parent "u1"
           (request_root ++ [("parent_id", PStr "zz")])%list 102 db0
           (PStr "zz")); reflexivity.
Defined.



